(** * LemonTizer: model resolution and token filtering

    A shallow embedding of [src/lemon_tizer/main.py].  The class wraps spaCy:
    [find_model_name] picks a trained pipeline by matching a regular
    expression built from the language and size codes against the models
    compatible with the installed spaCy, [init_model] installs and loads it,
    and [lemmatize_sentence] filters and normalises the annotated tokens.

    Conventions of the embedding:
    - a Python [str] is a [string] whose characters are code points below
      256 (Latin-1); [str.lower], [str.split] and the regular-expression
      dot are written out for that range;
    - a method is a function in the monad [M]: it receives the instance,
      and gives back a [result] and the instance as the call left it;
    - spaCy itself (compatibility table, package store, loader, annotator)
      is the record [spacy] of what its calls answer;
    - Python's [re] is embedded for the syntax made of ordinary characters,
      [.], [^] and [*]; a pattern that leaves it gives [Unmodelled]. *)

From Stdlib Require Import Bool Ascii String List NArith Arith Lia.
Import ListNotations.

Local Open Scope string_scope.
Local Open Scope list_scope.

(** ** Python strings *)

Module Str.

(** [c.lower()] for one code point below 256: the capitals A-Z and the
    Latin-1 capitals U+00C0-U+00DE (the sign U+00D7 apart) move up by 32. *)
Definition lower_char (c : ascii) : ascii :=
  let n := N_of_ascii c in
  if ((65 <=? n) && (n <=? 90) ||
      (192 <=? n) && (n <=? 222) && negb (n =? 215))%N
  then ascii_of_N (n + 32) else c.

(** [s.lower()] *)
Fixpoint lower (s : string) : string :=
  match s with
  | EmptyString => EmptyString
  | String c s' => String (lower_char c) (lower s')
  end.

(** [c.isspace()]: tab to carriage return, the four separators
    U+001C-U+001F, space, U+0085 and U+00A0. *)
Definition isspace (c : ascii) : bool :=
  let n := N_of_ascii c in
  ((9 <=? n) && (n <=? 13) || (28 <=? n) && (n <=? 32) ||
   (n =? 133) || (n =? 160))%N.

Definition is_empty (s : string) : bool :=
  match s with EmptyString => true | String _ _ => false end.

(** The scan behind [s.split()]: [word] is the word being read. *)
Fixpoint split_from (word s : string) : list string :=
  match s with
  | EmptyString => if is_empty word then [] else [word]
  | String c s' =>
      if isspace c
      then (if is_empty word then split_from EmptyString s'
            else word :: split_from EmptyString s')
      else split_from (word ++ String c EmptyString) s'
  end.

(** [s.split()]: the maximal runs of characters that are not whitespace. *)
Definition split (s : string) : list string := split_from EmptyString s.

(** [s.startswith(p)] *)
Fixpoint startswith (p s : string) : bool :=
  match p, s with
  | EmptyString, _ => true
  | String a p', String b s' => Ascii.eqb a b && startswith p' s'
  | String _ _, EmptyString => false
  end.

(** [s.removeprefix(p)] when [s] starts with [p]. *)
Fixpoint strip_prefix (p s : string) : option string :=
  match p, s with
  | EmptyString, _ => Some s
  | String a p', String b s' =>
      if Ascii.eqb a b then strip_prefix p' s' else None
  | String _ _, EmptyString => None
  end.

Definition newline : ascii := ascii_of_N 10.

Fixpoint no_newline (s : string) : bool :=
  match s with
  | EmptyString => true
  | String c s' => negb (Ascii.eqb c newline) && no_newline s'
  end.

End Str.

(** ** Exceptions and results *)

Inductive exception : Type :=
| ValueError (error_text : list string) (language model_size : string)
| IndexError
| AttributeError (attribute : string)
| re_error (msg : string)
| SpacyError (what : string).

Inductive result (A : Type) : Type :=
| Return (a : A)
| Raise (e : exception)
| Unmodelled.

Arguments Return {A} a.
Arguments Raise {A} e.
Arguments Unmodelled {A}.

Definition bind_result {A B} (r : result A) (k : A -> result B) : result B :=
  match r with
  | Return a => k a
  | Raise e => Raise e
  | Unmodelled => Unmodelled
  end.

Declare Scope result_scope.
Delimit Scope result_scope with result.
Notation "x <- c ;; k" := (bind_result c (fun x => k))
  (at level 61, c at next level, right associativity) : result_scope.

(** ** The fragment of Python's [re] *)

Module Re.

Inductive atom : Type :=
| Lit (c : ascii)       (* an ordinary character *)
| Any.                  (* [.]: any character but the newline *)

Inductive item : Type :=
| One (a : atom)
| Many (a : atom)       (* [a*] *)
| Bol.                  (* [^]: the start of the string *)

Definition Pattern : Type := list item.

(** The characters with a meaning of their own in a pattern. *)
Definition is_special (c : ascii) : bool :=
  existsb (Ascii.eqb c)
    (list_ascii_of_string ".^$*+?{}[]\|()").

Fixpoint plain (s : string) : bool :=
  match s with
  | EmptyString => true
  | String c s' => negb (is_special c) && plain s'
  end.

(** The characters of the syntax embedded here: the ordinary ones and
    [.], [^], [*]. *)
Definition is_modelled (c : ascii) : bool :=
  negb (is_special c) ||
  Ascii.eqb c "." || Ascii.eqb c "^" || Ascii.eqb c "*".

Fixpoint modelled (s : string) : bool :=
  match s with
  | EmptyString => true
  | String c s' => is_modelled c && modelled s'
  end.

(** What is left of the pattern is one backslash with nothing after it. *)
Definition lone_backslash (s : string) : bool :=
  match s with
  | String c EmptyString => Ascii.eqb c "\"
  | _ => false
  end.

(** One left-to-right pass over the pattern, as [re]'s parser makes it;
    [seen] holds the items read so far, the last one first.  The parser
    takes a token with the next one already read, so a backslash that
    ends the pattern is an error before the token in front of it is
    looked at.  [*] turns the item before it into a repetition and is an
    error where there is none to repeat or where it is one already. *)
Fixpoint parse (seen : list item) (s : string) : result Pattern :=
  match s with
  | EmptyString => Return (rev seen)
  | String c s' =>
      if negb (is_modelled c) then Unmodelled
      else if lone_backslash s'
      then Raise (re_error "bad escape (end of pattern)")
      else if Ascii.eqb c "." then parse (One Any :: seen) s'
      else if Ascii.eqb c "^" then parse (Bol :: seen) s'
      else if Ascii.eqb c "*" then
        match seen with
        | One a :: seen' => parse (Many a :: seen') s'
        | Many _ :: _ => Raise (re_error "multiple repeat")
        | Bol :: _ | [] => Raise (re_error "nothing to repeat")
        end
      else parse (One (Lit c) :: seen) s'
  end.

(** [re.compile(pattern)] *)
Definition compile (pattern : string) : result Pattern := parse [] pattern.

Definition atom_matches (a : atom) (c : ascii) : bool :=
  match a with
  | Lit d => Ascii.eqb d c
  | Any => negb (Ascii.eqb c Str.newline)
  end.

(** Whether the pattern matches some prefix of [s]; [at_start] tells that
    no character has been consumed yet. *)
Fixpoint matches (p : Pattern) : bool -> string -> bool :=
  match p with
  | [] => fun _ _ => true
  | Bol :: p' => fun at_start s => at_start && matches p' at_start s
  | One a :: p' => fun _ s =>
      match s with
      | String c s' => atom_matches a c && matches p' false s'
      | EmptyString => false
      end
  | Many a :: p' =>
      fix many (at_start : bool) (s : string) : bool :=
        matches p' at_start s ||
        match s with
        | String c s' => atom_matches a c && many false s'
        | EmptyString => false
        end
  end.

(** The truth value of [regex.match(s)]: a match anchored at the start. *)
Definition match_ (regex : Pattern) (s : string) : bool :=
  matches regex true s.

End Re.

(** ** spaCy as the class sees it *)

Record Token : Type := {
  text : string;
  lemma_ : string;
  is_alpha : bool;
  is_stop : bool
}.

(** A loaded pipeline: text in, the document's tokens out, in order. *)
Definition Language : Type := string -> list Token.

Record spacy : Type := {
  get_compatibility : list string;            (* the keys, in iteration order *)
  is_package : string -> bool;                (* [spacy.util.is_package] *)
  cli_download : string -> option exception;  (* [None]: downloaded *)
  load : string -> exception + Language       (* [spacy.load] *)
}.

(** ** find_model_name *)

Definition get_available_models (sp : spacy) : list string :=
  get_compatibility sp.

Definition size_error_text : string :=
  "Model not found for language and model size combination. Both language and"
  ++ "model size should be lower case 2 letter codes"
  ++ "Supported models: https://spacy.io/models".

Definition language_error_text (language : string) : string :=
  "No models found for language " ++ language
  ++ ". Languages should be a lower case 2"
  ++ "letter code. Supported languages: https://spacy.io/models".

(** The method reads no attribute of the instance and assigns none, so it
    is written as a function of what spaCy answers. *)
Definition find_model_name (sp : spacy) (language model_size : string)
  : result string :=
  (let language := Str.lower language in
   let model_size := Str.lower model_size in
   regex <- Re.compile (language ++ ".*" ++ model_size) ;;
   let available_models := get_available_models sp in
   let matched_models := filter (Re.match_ regex) available_models in
   match matched_models with
   | output :: _ => Return output
   | [] =>
       regex <- Re.compile ("^" ++ language) ;;
       let matched_models := filter (Re.match_ regex) available_models in
       let error_text :=
         match matched_models with
         | _ :: _ => [size_error_text]
         | [] => [language_error_text language]
         end in
       Raise (ValueError error_text language model_size)
   end)%result.

(** ** The class *)

(** An instance holds the attributes that have been assigned so far; a
    fresh instance holds none, and reading one that is not there raises
    [AttributeError]. *)
Record LemonTizer : Type := {
  _nlp : option Language;
  _model_name : option string;
  _filter_out_non_alpha : option bool;
  _filter_out_common : option bool;
  _convert_input_to_lower : option bool;
  _convert_output_to_lower : option bool;
  _return_just_first_word_of_lemma : option bool
}.

Definition fresh : LemonTizer :=
  {| _nlp := None; _model_name := None;
     _filter_out_non_alpha := None; _filter_out_common := None;
     _convert_input_to_lower := None; _convert_output_to_lower := None;
     _return_just_first_word_of_lemma := None |}.

(** A method body: the instance goes in, the outcome and the instance as
    the body left it come out. *)
Definition M (A : Type) : Type := LemonTizer -> result A * LemonTizer.

Definition ret {A} (a : A) : M A := fun self => (Return a, self).

Definition bind {A B} (m : M A) (k : A -> M B) : M B :=
  fun self =>
    match m self with
    | (Return a, self') => k a self'
    | (Raise e, self') => (Raise e, self')
    | (Unmodelled, self') => (Unmodelled, self')
    end.

Definition lift {A} (r : result A) : M A := fun self => (r, self).

Definition getattr {A} (name : string) (field : LemonTizer -> option A) : M A :=
  fun self =>
    match field self with
    | Some v => (Return v, self)
    | None => (Raise (AttributeError name), self)
    end.

Declare Scope method_scope.
Delimit Scope method_scope with method.
Notation "x <- c ;; k" := (bind c (fun x => k))
  (at level 61, c at next level, right associativity) : method_scope.
Notation "c ;; k" := (bind c (fun _ => k))
  (at level 61, right associativity) : method_scope.

Definition set_lemma_settings
    (filter_out_non_alpha filter_out_common convert_input_to_lower
     convert_output_to_lower return_just_first_word_of_lemma : bool) : M unit :=
  fun self =>
    (Return tt,
     {| _nlp := _nlp self;
        _model_name := _model_name self;
        _filter_out_non_alpha := Some filter_out_non_alpha;
        _filter_out_common := Some filter_out_common;
        _convert_input_to_lower := Some convert_input_to_lower;
        _convert_output_to_lower := Some convert_output_to_lower;
        _return_just_first_word_of_lemma :=
          Some return_just_first_word_of_lemma |}).

Definition is_model_installed (sp : spacy) (model_name : string) : bool :=
  is_package sp model_name.

Definition download_model (sp : spacy) (model_name : string) : M unit :=
  lift match cli_download sp model_name with
       | Some e => Raise e
       | None => Return tt
       end.

Definition assign_model_name (model_name : string) : M unit :=
  fun self =>
    (Return tt,
     {| _nlp := _nlp self;
        _model_name := Some model_name;
        _filter_out_non_alpha := _filter_out_non_alpha self;
        _filter_out_common := _filter_out_common self;
        _convert_input_to_lower := _convert_input_to_lower self;
        _convert_output_to_lower := _convert_output_to_lower self;
        _return_just_first_word_of_lemma :=
          _return_just_first_word_of_lemma self |}).

Definition assign_nlp (nlp : Language) : M unit :=
  fun self =>
    (Return tt,
     {| _nlp := Some nlp;
        _model_name := _model_name self;
        _filter_out_non_alpha := _filter_out_non_alpha self;
        _filter_out_common := _filter_out_common self;
        _convert_input_to_lower := _convert_input_to_lower self;
        _convert_output_to_lower := _convert_output_to_lower self;
        _return_just_first_word_of_lemma :=
          _return_just_first_word_of_lemma self |}).

Definition _load_model (sp : spacy) (model_name : string) : M unit :=
  (assign_model_name model_name ;;
   nlp <- lift match load sp model_name with
               | inl e => Raise e
               | inr nlp => Return nlp
               end ;;
   assign_nlp nlp)%method.

Definition init_model (sp : spacy) (language model_size : string) : M unit :=
  ((* Set default settings *)
   set_lemma_settings false false false false false ;;
   (* Get model name *)
   model_name <- lift (find_model_name sp language model_size) ;;
   (* Load model, downloading it first if necessary *)
   if is_model_installed sp model_name
   then _load_model sp model_name
   else (download_model sp model_name ;; _load_model sp model_name))%method.

(** The arguments default to ["en"] and ["lg"] in the source; here they
    are always given. *)
Definition __init__ (sp : spacy) (language model_size : string) : M unit :=
  init_model sp language model_size.

(** [LemonTizer(language, model_size)]: the caller gets the instance only
    when [__init__] returns. *)
Definition new (sp : spacy) (language model_size : string)
  : result LemonTizer :=
  match __init__ sp language model_size fresh with
  | (Return _, self) => Return self
  | (Raise e, _) => Raise e
  | (Unmodelled, _) => Unmodelled
  end.

(** ** lemmatize_sentence *)

(** [{key: value}], a dictionary of one entry. *)
Definition dict : Type := list (string * string).

(** [l[0]] *)
Definition item0 {A} (l : list A) : result A :=
  match l with
  | x :: _ => Return x
  | [] => Raise IndexError
  end.

(** The loop [for token in doc], with [word_list] as built so far. *)
Fixpoint for_token_in (doc : list Token) (word_list : list dict)
  : M (list dict) :=
  match doc with
  | [] => ret word_list
  | token :: doc' =>
      ((* Skip word, depending on settings and properties of the token *)
       is_not_word <-
         (if negb (is_alpha token)
          then getattr "_filter_out_non_alpha" _filter_out_non_alpha
          else ret false) ;;
       is_common <-
         (if is_stop token
          then getattr "_filter_out_common" _filter_out_common
          else ret false) ;;
       let skip_word := is_not_word || is_common in
       if skip_word then for_token_in doc' word_list
       else
         (* Get lemma for current token and post-process *)
         let lemma := lemma_ token in
         first_word <- getattr "_return_just_first_word_of_lemma"
                               _return_just_first_word_of_lemma ;;
         lemma <- (if first_word : bool
                   then lift (item0 (Str.split lemma))
                   else ret lemma) ;;
         to_lower <- getattr "_convert_output_to_lower"
                             _convert_output_to_lower ;;
         let lemma := if to_lower : bool then Str.lower lemma else lemma in
         (* Output dictionary is original token: lemma *)
         let word_dict := [(text token, lemma)] in
         for_token_in doc' (word_list ++ [word_dict]))%method
  end.

Definition lemmatize_sentence (input_str : string) : M (list dict) :=
  ((* Pre-process input *)
   to_lower <- getattr "_convert_input_to_lower" _convert_input_to_lower ;;
   let input_str := if to_lower : bool then Str.lower input_str else input_str in
   (* Process the input string with spacy *)
   nlp <- getattr "_nlp" _nlp ;;
   let doc := (nlp : Language) input_str in
   (* Get the lemmas for each token *)
   for_token_in doc [])%method.

Definition get_current_model_name : M string := getattr "_model_name" _model_name.

Definition get_spacy_object : M Language := getattr "_nlp" _nlp.

(** ** The resolver's rule in the specification's words *)

Module Rule.

(** [z] occurs in [s], with no line break before it. *)
Fixpoint occurs_on_line (z s : string) : bool :=
  Str.startswith z s ||
  match s with
  | String c s' => negb (Ascii.eqb c Str.newline) && occurs_on_line z s'
  | EmptyString => false
  end.

(** [z] occurs somewhere in [s]. *)
Fixpoint occurs (z s : string) : bool :=
  Str.startswith z s ||
  match s with
  | String _ s' => occurs z s'
  | EmptyString => false
  end.

(** The weaker rule: the entry starts with the language code. *)
Definition prefix (language entry : string) : bool :=
  Str.startswith language entry.

(** The full rule as the specification words it: the entry starts with
    the language code and holds the size code somewhere after it. *)
Definition begins_then_contains (language size entry : string) : bool :=
  match Str.strip_prefix language entry with
  | Some tail => occurs size tail
  | None => false
  end.

(** The full rule as the expression [^language.*size] decides it: the
    size code is found after the prefix before any line break. *)
Definition full (language size entry : string) : bool :=
  match Str.strip_prefix language entry with
  | Some tail => occurs_on_line size tail
  | None => false
  end.

(** The same, said of the entry: it is the language code, then
    characters of one line, then the size code, then anything. *)
Definition holds (language size entry : string) : Prop :=
  exists mid rest,
    entry = (language ++ mid ++ size ++ rest)%string /\
    Str.no_newline mid = true.

End Rule.

(** The two kinds of failed resolution, as the [ValueError] that carries
    them. *)
Definition UnsupportedLanguage (language model_size : string) : exception :=
  ValueError [language_error_text language] language model_size.

Definition UnsupportedModelSize (language model_size : string) : exception :=
  ValueError [size_error_text] language model_size.

(** The pattern of a string without special characters. *)
Fixpoint lits (s : string) : Re.Pattern :=
  match s with
  | EmptyString => []
  | String c s' => Re.One (Re.Lit c) :: lits s'
  end.


(** ** Instances after construction *)

(** The five options of [set_lemma_settings]. *)
Record LemmaSettings : Type := {
  filter_out_non_alpha : bool;
  filter_out_common : bool;
  convert_input_to_lower : bool;
  convert_output_to_lower : bool;
  return_just_first_word_of_lemma : bool
}.

Definition default_settings : LemmaSettings :=
  {| filter_out_non_alpha := false; filter_out_common := false;
     convert_input_to_lower := false; convert_output_to_lower := false;
     return_just_first_word_of_lemma := false |}.

(** An instance with every attribute assigned: pipeline [nlp] loaded under
    the name [model_name], options [s]. *)
Definition loaded (nlp : Language) (model_name : string) (s : LemmaSettings)
  : LemonTizer :=
  {| _nlp := Some nlp;
     _model_name := Some model_name;
     _filter_out_non_alpha := Some (filter_out_non_alpha s);
     _filter_out_common := Some (filter_out_common s);
     _convert_input_to_lower := Some (convert_input_to_lower s);
     _convert_output_to_lower := Some (convert_output_to_lower s);
     _return_just_first_word_of_lemma :=
       Some (return_just_first_word_of_lemma s) |}.

(** The same options with both filters switched as given. *)
Definition with_filters (non_alpha common : bool) (s : LemmaSettings)
  : LemmaSettings :=
  {| filter_out_non_alpha := non_alpha;
     filter_out_common := common;
     convert_input_to_lower := convert_input_to_lower s;
     convert_output_to_lower := convert_output_to_lower s;
     return_just_first_word_of_lemma := return_just_first_word_of_lemma s |}.

(** The same options with the first-word option switched as given. *)
Definition with_first_word (first_word : bool) (s : LemmaSettings)
  : LemmaSettings :=
  {| filter_out_non_alpha := filter_out_non_alpha s;
     filter_out_common := filter_out_common s;
     convert_input_to_lower := convert_input_to_lower s;
     convert_output_to_lower := convert_output_to_lower s;
     return_just_first_word_of_lemma := first_word |}.

(** ** The per-token rules, one by one *)

Module Pipeline.

(** Whether a token is skipped. *)
Definition drop (s : LemmaSettings) (token : Token) : bool :=
  (negb (is_alpha token) && filter_out_non_alpha s) ||
  (is_stop token && filter_out_common s).

Definition keep (s : LemmaSettings) (token : Token) : bool :=
  negb (drop s token).

(** [lemma.split()[0]] *)
Definition first_word (lemma : string) : result string :=
  item0 (Str.split lemma).

(** The lemma of a token that is not skipped, after both post-processing
    steps. *)
Definition final_lemma (s : LemmaSettings) (token : Token) : result string :=
  (lemma <- (if return_just_first_word_of_lemma s
             then first_word (lemma_ token)
             else Return (lemma_ token)) ;;
   Return (if convert_output_to_lower s then Str.lower lemma else lemma))%result.

(** One dictionary per token, in order; the first lemma that cannot be
    computed ends the run. *)
Fixpoint emit (s : LemmaSettings) (doc : list Token) : result (list dict) :=
  match doc with
  | [] => Return []
  | token :: doc' =>
      (lemma <- final_lemma s token ;;
       rest <- emit s doc' ;;
       Return ([(text token, lemma)] :: rest))%result
  end.

(** The text handed to the annotator. *)
Definition annotated_text (s : LemmaSettings) (input_str : string) : string :=
  if convert_input_to_lower s then Str.lower input_str else input_str.

(** The original token of an emitted dictionary. *)
Definition original (d : dict) : option string :=
  match d with
  | [(key, _)] => Some key
  | _ => None
  end.

End Pipeline.

(** A string that holds no whitespace. *)
Fixpoint ws_free (s : string) : bool :=
  match s with
  | EmptyString => true
  | String c s' => negb (Str.isspace c) && ws_free s'
  end.

(** A method body that leaves the instance as it found it. *)
Definition readonly {A} (m : M A) : Prop :=
  forall self, snd (m self) = self.

(** A string made of whitespace only; the empty string is one. *)
Fixpoint all_space (s : string) : bool :=
  match s with
  | EmptyString => true
  | String c s' => Str.isspace c && all_space s'
  end.

(** ** Concrete inputs *)

Module Examples.

(** An annotator that answers the same tokens for every text. *)
Definition annotator (doc : list Token) : Language := fun _ => doc.

(** A spaCy whose compatibility table lists [catalog], with every model
    installed and loadable. *)
Definition store (catalog : list string) : spacy :=
  {| get_compatibility := catalog;
     is_package := fun _ => true;
     cli_download := fun _ => None;
     load := fun _ => inr (annotator []) |}.

Definition catalog : list string :=
  ["en_core_web_sm"; "en_core_web_lg"; "es_core_news_lg"].

Definition the : Token :=
  {| text := "The"; lemma_ := "the"; is_alpha := true; is_stop := true |}.
Definition comma : Token :=
  {| text := ","; lemma_ := ","; is_alpha := false; is_stop := false |}.
Definition cats : Token :=
  {| text := "cats"; lemma_ := "cat"; is_alpha := true; is_stop := false |}.
Definition purr : Token :=
  {| text := "purr"; lemma_ := "purr"; is_alpha := true; is_stop := false |}.

(** The token spaCy makes of the second of two spaces in a row. *)
Definition gap : Token :=
  {| text := " "; lemma_ := " "; is_alpha := false; is_stop := false |}.

(** A token of a pipeline that assigns no lemma. *)
Definition hello : Token :=
  {| text := "Hello"; lemma_ := ""; is_alpha := true; is_stop := false |}.

Definition first_word_only : LemmaSettings :=
  with_first_word true default_settings.

Definition both_filters : LemmaSettings :=
  with_filters true true default_settings.

Definition lower_input_only : LemmaSettings :=
  {| filter_out_non_alpha := false; filter_out_common := false;
     convert_input_to_lower := true; convert_output_to_lower := false;
     return_just_first_word_of_lemma := false |}.

(** An annotator that splits at single spaces and copies each piece to
    its lemma. *)
Definition word_token (w : string) : Token :=
  {| text := w; lemma_ := w; is_alpha := true; is_stop := false |}.

Definition words : Language := fun s => map word_token (Str.split s).

(** A spaCy with one model in its table, installed or not, whose download
    and whose loading answer as given. *)
Definition single (model : string) (installed : bool)
    (download : option exception) (loading : exception + Language) : spacy :=
  {| get_compatibility := [model];
     is_package := fun _ => installed;
     cli_download := fun _ => download;
     load := fun _ => loading |}.

Definition output_to_lower_only : LemmaSettings :=
  {| filter_out_non_alpha := false; filter_out_common := false;
     convert_input_to_lower := false; convert_output_to_lower := true;
     return_just_first_word_of_lemma := false |}.

(** A token whose lemma is two words, the first one capitalised. *)
Definition gonna : Token :=
  {| text := "gonna"; lemma_ := "Go to"; is_alpha := true; is_stop := false |}.

End Examples.

(** ** Strings *)

Lemma lower_char_special (c : ascii) :
  Re.is_special (Str.lower_char c) = Re.is_special c.
Proof.
  destruct c as [[] [] [] [] [] [] [] []]; reflexivity.
Qed.

Lemma plain_lower (s : string) : Re.plain (Str.lower s) = Re.plain s.
Proof.
  induction s as [|c s IH]; simpl; [reflexivity|].
  now rewrite lower_char_special, IH.
Qed.

Lemma append_assoc (a b c : string) : ((a ++ b) ++ c = a ++ (b ++ c))%string.
Proof.
  induction a as [|x a IH]; simpl; [reflexivity | now rewrite IH].
Qed.

Lemma append_empty_r (s : string) : (s ++ "")%string = s.
Proof. induction s as [|c s IH]; simpl; [reflexivity | now rewrite IH]. Qed.

Lemma startswith_iff (p s : string) :
  Str.startswith p s = true <-> exists rest, s = (p ++ rest)%string.
Proof.
  revert s; induction p as [|a p IH]; intros s; simpl.
  - split; [intros _; now exists s | reflexivity].
  - destruct s as [|b s].
    + split; [discriminate | intros [rest H]; discriminate].
    + rewrite andb_true_iff, Ascii.eqb_eq, IH. split.
      * intros [-> [rest ->]]. now exists rest.
      * intros [rest H]. injection H as -> ->. split; [reflexivity | now exists rest].
Qed.

Lemma strip_prefix_iff (p s tail : string) :
  Str.strip_prefix p s = Some tail <-> s = (p ++ tail)%string.
Proof.
  revert s; induction p as [|a p IH]; intros s; simpl.
  - split; [now intros [= ->] | now intros ->].
  - destruct s as [|b s].
    + split; discriminate.
    + destruct (Ascii.eqb_spec a b) as [->|Hab].
      * rewrite IH. split; [now intros -> | now intros [= ->]].
      * split; [discriminate | intros [= -> _]; now elim Hab].
Qed.

Lemma strip_prefix_startswith (p s : string) :
  Str.startswith p s =
  match Str.strip_prefix p s with Some _ => true | None => false end.
Proof.
  revert s; induction p as [|a p IH]; intros [|b s]; simpl; try reflexivity.
  destruct (Ascii.eqb a b); simpl; [apply IH | reflexivity].
Qed.

Lemma occurs_on_line_iff (z s : string) :
  Rule.occurs_on_line z s = true <->
  exists mid rest, s = (mid ++ z ++ rest)%string /\ Str.no_newline mid = true.
Proof.
  induction s as [|c s IH]; simpl.
  - rewrite orb_false_r, startswith_iff. split.
    + intros [rest H]. now exists EmptyString, rest.
    + intros [[|m mid] [rest [H _]]]; [now exists rest | discriminate].
  - rewrite orb_true_iff, andb_true_iff, IH, startswith_iff. split.
    + intros [[rest H] | [Hc [mid [rest [-> Hm]]]]].
      * now exists EmptyString, rest.
      * exists (String c mid), rest. simpl. now rewrite Hc, Hm.
    + intros [[|m mid] [rest [H Hm]]]; simpl in *.
      * left. now exists rest.
      * injection H as <- ->. apply andb_true_iff in Hm as [Hc Hm].
        right. split; [exact Hc | now exists mid, rest].
Qed.

(** What the full rule says of an entry. *)
Lemma full_iff (language size entry : string) :
  Rule.full language size entry = true <->
  exists mid rest,
    entry = (language ++ mid ++ size ++ rest)%string /\
    Str.no_newline mid = true.
Proof.
  unfold Rule.full. split.
  - destruct (Str.strip_prefix language entry) as [tail|] eqn:E; [|discriminate].
    apply strip_prefix_iff in E as ->.
    intros [mid [rest [-> Hm]]]%occurs_on_line_iff. now exists mid, rest.
  - intros [mid [rest [-> Hm]]].
    assert (E : Str.strip_prefix language (language ++ mid ++ size ++ rest)
                = Some (mid ++ size ++ rest)%string) by now apply strip_prefix_iff.
    rewrite E. apply occurs_on_line_iff. now exists mid, rest.
Qed.

(** ** Patterns without special characters *)

Lemma plain_char (c : ascii) :
  Re.is_special c = false ->
  Ascii.eqb c "." = false /\ Ascii.eqb c "^" = false /\ Ascii.eqb c "*" = false.
Proof.
  unfold Re.is_special; simpl. intros H.
  repeat (apply orb_false_iff in H as [? H]). now repeat split.
Qed.

Lemma plain_char_modelled (c : ascii) :
  Re.is_special c = false -> Re.is_modelled c = true.
Proof. intros H. unfold Re.is_modelled. now rewrite H. Qed.

Lemma plain_char_not_backslash (c : ascii) :
  Re.is_special c = false -> Ascii.eqb c "\" = false.
Proof.
  unfold Re.is_special; simpl. intros H.
  repeat (apply orb_false_iff in H as [? H]). assumption.
Qed.

(** A pattern that goes on with an ordinary character, or with two
    characters or more, does not end in a lone backslash. *)
Lemma lone_backslash_plain (l tail : string) :
  Re.plain l = true ->
  Re.lone_backslash tail = false ->
  Re.lone_backslash (l ++ tail) = false.
Proof.
  destruct l as [|c l]; simpl; [easy|].
  intros [Hc _]%andb_true_iff _. apply negb_true_iff in Hc.
  destruct (l ++ tail)%string; [now apply plain_char_not_backslash | reflexivity].
Qed.

(** The parser on an ordinary character that is not the last before a
    lone backslash. *)
Lemma parse_plain_char (c : ascii) (s : string) (seen : list Re.item) :
  Re.is_special c = false ->
  Re.lone_backslash s = false ->
  Re.parse seen (String c s) = Re.parse (Re.One (Re.Lit c) :: seen) s.
Proof.
  intros Hc Hs. simpl.
  rewrite (plain_char_modelled c Hc), Hs. simpl.
  now destruct (plain_char c Hc) as (-> & -> & ->).
Qed.

Lemma parse_plain_prefix (l tail : string) (seen : list Re.item) :
  Re.plain l = true ->
  Re.lone_backslash tail = false ->
  Re.parse seen (l ++ tail) = Re.parse (rev (lits l) ++ seen) tail.
Proof.
  intros Hl Ht. revert seen Hl; induction l as [|c l IH]; intros seen.
  - reflexivity.
  - intros [Hc Hl]%andb_true_iff. apply negb_true_iff in Hc.
    change (String c l ++ tail)%string with (String c (l ++ tail)).
    rewrite parse_plain_char
      by (try exact Hc; now apply lone_backslash_plain).
    rewrite IH by exact Hl. simpl. now rewrite <- app_assoc.
Qed.

Lemma parse_plain (z : string) (seen : list Re.item) :
  Re.plain z = true -> Re.parse seen z = Return (rev seen ++ lits z).
Proof.
  intros Hz. rewrite <- (append_empty_r z) at 1.
  rewrite parse_plain_prefix by easy. simpl.
  now rewrite rev_app_distr, rev_involutive.
Qed.

Lemma parse_full_rule (l z : string) (seen : list Re.item) :
  Re.plain l = true -> Re.plain z = true ->
  Re.parse seen (l ++ ".*" ++ z)
  = Return (rev seen ++ lits l ++ Re.Many Re.Any :: lits z).
Proof.
  intros Hl Hz. rewrite parse_plain_prefix by easy.
  assert (Hstar : Re.lone_backslash ("*" ++ z) = false).
  { now destruct z. }
  assert (Hz' : Re.lone_backslash z = false)
    by (rewrite <- (append_empty_r z); now apply lone_backslash_plain).
  change (".*" ++ z)%string with (String "." (String "*" z)).
  change ("*" ++ z)%string with (String "*" z) in Hstar.
  cbn [Re.parse]. rewrite Hstar, Hz'. cbn.
  rewrite parse_plain by exact Hz. cbn.
  now rewrite rev_app_distr, rev_involutive, <- !app_assoc.
Qed.

Lemma compile_full_rule (l z : string) :
  Re.plain l = true -> Re.plain z = true ->
  Re.compile (l ++ ".*" ++ z) = Return (lits l ++ Re.Many Re.Any :: lits z).
Proof. intros Hl Hz. unfold Re.compile. now rewrite parse_full_rule. Qed.

Lemma compile_prefix_rule (l : string) :
  Re.plain l = true -> Re.compile ("^" ++ l) = Return (Re.Bol :: lits l).
Proof.
  intros Hl. unfold Re.compile.
  assert (Hl' : Re.lone_backslash l = false)
    by (rewrite <- (append_empty_r l); now apply lone_backslash_plain).
  change ("^" ++ l)%string with (String "^" l). cbn [Re.parse].
  rewrite Hl'. cbn. now rewrite parse_plain.
Qed.

Lemma matches_lits (z : string) (b : bool) (s : string) :
  Re.matches (lits z) b s = Str.startswith z s.
Proof.
  revert b s; induction z as [|c z IH]; intros b [|d s]; simpl; try reflexivity.
  now rewrite IH.
Qed.

Lemma matches_any_then_lits (z : string) (b : bool) (s : string) :
  Re.matches (Re.Many Re.Any :: lits z) b s = Rule.occurs_on_line z s.
Proof.
  revert b; induction s as [|c s IH]; intros b; simpl.
  - now rewrite matches_lits.
  - rewrite matches_lits. f_equal. f_equal. apply IH.
Qed.

Lemma matches_full_rule (l z : string) (b : bool) (s : string) :
  Re.matches (lits l ++ Re.Many Re.Any :: lits z) b s = Rule.full l z s.
Proof.
  unfold Rule.full.
  revert b s; induction l as [|c l IH]; intros b s.
  - apply matches_any_then_lits.
  - destruct s as [|d s]; simpl; [reflexivity|].
    destruct (Ascii.eqb c d); simpl; [apply IH | reflexivity].
Qed.

Lemma match_prefix_rule (l s : string) :
  Re.match_ (Re.Bol :: lits l) s = Rule.prefix l s.
Proof. unfold Re.match_, Rule.prefix. simpl. apply matches_lits. Qed.

Lemma filter_ext_eq {A} (f g : A -> bool) (l : list A) :
  (forall x, f x = g x) -> filter f l = filter g l.
Proof. intros H. induction l as [|x l IH]; simpl; [reflexivity|]. now rewrite H, IH. Qed.

Lemma filter_first {A} (f : A -> bool) (before after : list A) (x : A) :
  Forall (fun y => f y = false) before -> f x = true ->
  exists tl, filter f (before ++ x :: after) = x :: tl.
Proof.
  intros Hb Hx. induction Hb as [|y before Hy _ IH]; simpl.
  - rewrite Hx. now eexists.
  - now rewrite Hy.
Qed.

Lemma filter_none {A} (f : A -> bool) (l : list A) :
  Forall (fun y => f y = false) l -> filter f l = [].
Proof. induction 1 as [|y l Hy _ IH]; simpl; [reflexivity | now rewrite Hy]. Qed.

Lemma filter_nil_existsb {A} (f : A -> bool) (l : list A) :
  match filter f l with [] => existsb f l = false | _ :: _ => existsb f l = true end.
Proof.
  induction l as [|x l IH]; simpl; [reflexivity|].
  destruct (f x); simpl; [reflexivity | exact IH].
Qed.

(** [find_model_name] on codes without special characters: the two
    expressions compile, and the filters are the two rules. *)
Lemma find_model_name_plain (sp : spacy) (language model_size : string) :
  Re.plain language = true -> Re.plain model_size = true ->
  find_model_name sp language model_size =
  let l := Str.lower language in
  let z := Str.lower model_size in
  match filter (Rule.full l z) (get_compatibility sp) with
  | output :: _ => Return output
  | [] =>
      Raise (if existsb (Rule.prefix l) (get_compatibility sp)
             then UnsupportedModelSize l z
             else UnsupportedLanguage l z)
  end.
Proof.
  intros Hl Hz. rewrite <- plain_lower in Hl, Hz.
  unfold find_model_name. cbv zeta.
  rewrite compile_full_rule by assumption. cbn [bind_result].
  unfold get_available_models.
  rewrite (filter_ext_eq (Re.match_ _) (Rule.full (Str.lower language) (Str.lower model_size)))
    by (intros x; apply matches_full_rule).
  destruct (filter (Rule.full _ _) _) as [|output tl]; [|reflexivity].
  rewrite compile_prefix_rule by assumption. cbn [bind_result].
  rewrite (filter_ext_eq (Re.match_ _) (Rule.prefix (Str.lower language)))
    by (intros x; apply match_prefix_rule).
  pose proof (filter_nil_existsb (Rule.prefix (Str.lower language)) (get_compatibility sp)) as H.
  destruct (filter (Rule.prefix _) _); rewrite H; reflexivity.
Qed.

(** ** find_model_name *)

(** C1, as amended.  For language and size codes without characters
    special to [re]: when some catalog entry satisfies the full rule (it
    starts with the lowercased language code, and the lowercased size code
    follows with no line break in between), [find_model_name] returns the
    first such entry in catalog order, whatever comes after it. *)
Theorem find_model_name_first_match
    (sp : spacy) (language model_size : string) :
  Re.plain language = true ->
  Re.plain model_size = true ->
  existsb (Rule.full (Str.lower language) (Str.lower model_size))
          (get_compatibility sp) = true ->
  exists before e after,
    get_compatibility sp = before ++ e :: after /\
    Forall (fun x => Rule.full (Str.lower language) (Str.lower model_size) x
                     = false) before /\
    Rule.full (Str.lower language) (Str.lower model_size) e = true /\
    find_model_name sp language model_size = Return e.
Proof.
  intros Hl Hz Hex.
  rewrite find_model_name_plain by assumption. cbv zeta.
  set (rule := Rule.full _ _) in *.
  induction (get_compatibility sp) as [|x catalog IH]; [discriminate|].
  simpl in *. destruct (rule x) eqn:Hx.
  - exists [], x, catalog. repeat split; [constructor | exact Hx].
  - destruct (IH Hex) as (before & e & after & -> & Hb & He & Hr).
    exists (x :: before), e, after. repeat split; [now constructor | exact He |].
    destruct (filter rule (before ++ e :: after)); [discriminate | exact Hr].
Qed.

Lemma find_model_name_first_match_witness :
  exists before e after,
    Examples.catalog = before ++ e :: after /\
    Forall (fun x => Rule.full "en" "lg" x = false) before /\
    Rule.full "en" "lg" e = true /\
    find_model_name (Examples.store Examples.catalog) "EN" "lg" = Return e.
Proof.
  apply (find_model_name_first_match (Examples.store Examples.catalog) "EN" "lg");
    reflexivity.
Defined.

(** C1 as it is worded fails.  With the language code [e.] the catalog's
    first entry that starts with [e.] and holds [lg] later is [e._lg],
    but the dot stands for any character and [ea_lg] is returned. *)
Lemma find_model_name_first_literal_match_refuted :
  Rule.begins_then_contains "e." "lg" "ea_lg" = false /\
  Rule.begins_then_contains "e." "lg" "e._lg" = true /\
  find_model_name (Examples.store ["ea_lg"; "e._lg"]) "e." "lg"
  = Return "ea_lg".
Proof. repeat split. Qed.

(** Why the full rule asks for one line: the dot of [.*] does not stand
    for a line break, so an entry that holds the size code only after one
    does not pass. *)
Lemma find_model_name_line_break :
  Rule.begins_then_contains "en" "lg" (String "e" (String "n" (String Str.newline "lg")))
  = true /\
  find_model_name
    (Examples.store [String "e" (String "n" (String Str.newline "lg"))])
    "en" "lg"
  = Raise (UnsupportedModelSize "en" "lg").
Proof. split; reflexivity. Qed.

(** C3, as amended.  For language and size codes without characters
    special to [re] and a catalog in which no entry satisfies the full
    rule, [find_model_name] raises a [ValueError] that carries the
    lowercased language and size codes, and whose message is decided by
    the prefix rule: the model-size message when some entry starts with
    the language code, the language message when none does (so always the
    language message for an empty catalog). *)
Theorem find_model_name_failure
    (sp : spacy) (language model_size : string) :
  Re.plain language = true ->
  Re.plain model_size = true ->
  Forall (fun e => Rule.full (Str.lower language) (Str.lower model_size) e
                   = false) (get_compatibility sp) ->
  find_model_name sp language model_size =
  Raise (if existsb (Rule.prefix (Str.lower language)) (get_compatibility sp)
         then UnsupportedModelSize (Str.lower language) (Str.lower model_size)
         else UnsupportedLanguage (Str.lower language) (Str.lower model_size)).
Proof.
  intros Hl Hz Hnone.
  rewrite find_model_name_plain by assumption. cbv zeta.
  now rewrite (filter_none _ _ Hnone).
Qed.

Lemma find_model_name_failure_witness :
  find_model_name (Examples.store Examples.catalog) "es" "sm"
  = Raise (UnsupportedModelSize "es" "sm") /\
  find_model_name (Examples.store Examples.catalog) "fr" "lg"
  = Raise (UnsupportedLanguage "fr" "lg") /\
  find_model_name (Examples.store []) "en" "lg"
  = Raise (UnsupportedLanguage "en" "lg").
Proof.
  split; [|split].
  - apply (find_model_name_failure (Examples.store Examples.catalog) "es" "sm");
      [reflexivity | reflexivity | repeat constructor].
  - apply (find_model_name_failure (Examples.store Examples.catalog) "fr" "lg");
      [reflexivity | reflexivity | repeat constructor].
  - apply (find_model_name_failure (Examples.store []) "en" "lg");
      [reflexivity | reflexivity | constructor].
Defined.

(** C3 as it is worded fails.  The codes go into the expression as they
    are, so with the language code [*] the expression does not compile:
    on the empty catalog the call raises [re.error], not the
    unsupported-language [ValueError]. *)
Lemma find_model_name_empty_catalog_refuted :
  find_model_name (Examples.store []) "*" "lg"
  = Raise (re_error "nothing to repeat") /\
  find_model_name (Examples.store []) "*" "lg"
  <> Raise (UnsupportedLanguage "*" "lg").
Proof. split; [reflexivity | discriminate]. Qed.

Lemma filter_head_split {A} (f : A -> bool) (l : list A) (x : A) (tl : list A) :
  filter f l = x :: tl ->
  exists before after,
    l = before ++ x :: after /\
    Forall (fun y => f y = false) before /\ f x = true.
Proof.
  induction l as [|y l IH]; simpl; [discriminate|].
  destruct (f y) eqn:Hy.
  - intros [= -> _]. exists [], l. now repeat split.
  - intros (before & after & -> & Hb & Hx)%IH.
    exists (y :: before), after. repeat split; [now constructor | exact Hx].
Qed.

Lemma full_holds (l z e : string) :
  Rule.full l z e = true <-> Rule.holds l z e.
Proof. apply full_iff. Qed.

Lemma full_not_holds (l z e : string) :
  Rule.full l z e = false <-> ~ Rule.holds l z e.
Proof.
  rewrite <- full_holds. destruct (Rule.full l z e); split; try easy.
Qed.

(** C6, as amended.  The codes are not escaped, they are read as the
    syntax of [re].  For language and size codes without characters
    special to [re], [find_model_name] returns an entry exactly when it is
    the first entry of the catalog that has the lowercased language code
    as its prefix and the lowercased size code after it, with no line
    break in between. *)
Theorem find_model_name_literal_codes
    (sp : spacy) (language model_size entry : string) :
  Re.plain language = true ->
  Re.plain model_size = true ->
  (find_model_name sp language model_size = Return entry <->
   exists before after,
     get_compatibility sp = before ++ entry :: after /\
     Forall (fun x => ~ Rule.holds (Str.lower language) (Str.lower model_size) x)
            before /\
     Rule.holds (Str.lower language) (Str.lower model_size) entry).
Proof.
  intros Hl Hz. rewrite find_model_name_plain by assumption. cbv zeta.
  split.
  - destruct (filter _ _) as [|x tl] eqn:E; [discriminate|].
    intros [= ->].
    apply filter_head_split in E as (before & after & Hcat & Hb & Hx).
    exists before, after. repeat split; [exact Hcat | | now apply full_holds].
    revert Hb. apply Forall_impl. intros y. apply full_not_holds.
  - intros (before & after & Hcat & Hb & Hx). rewrite Hcat.
    destruct (filter_first (Rule.full (Str.lower language) (Str.lower model_size))
                before after entry) as [tl ->]; [| now apply full_holds | reflexivity].
    revert Hb. apply Forall_impl. intros y. apply full_not_holds.
Qed.

Lemma find_model_name_literal_codes_witness :
  find_model_name (Examples.store Examples.catalog) "EN" "lg"
  = Return "en_core_web_lg" <->
  exists before after,
    Examples.catalog = before ++ "en_core_web_lg" :: after /\
    Forall (fun x => ~ Rule.holds "en" "lg" x) before /\
    Rule.holds "en" "lg" "en_core_web_lg".
Proof.
  apply (find_model_name_literal_codes
           (Examples.store Examples.catalog) "EN" "lg" "en_core_web_lg");
    reflexivity.
Defined.

(** C6 as it is worded fails.  The language code [e.] is not a prefix of
    [en_core_web_lg], yet the entry passes the filter and is returned:
    the dot is read as the any-character operator. *)
Lemma find_model_name_dot_is_operator :
  Str.startswith "e." "en_core_web_lg" = false /\
  find_model_name (Examples.store ["en_core_web_lg"]) "e." "lg"
  = Return "en_core_web_lg".
Proof. split; reflexivity. Qed.

(** ** lemmatize_sentence *)

Section Loaded.

Variables (nlp : Language) (model_name : string) (s : LemmaSettings).

(** One turn of the loop on an instance whose attributes are all
    assigned. *)
Lemma for_token_in_step
    (token : Token) (doc : list Token) (word_list : list dict) :
  for_token_in (token :: doc) word_list (loaded nlp model_name s) =
  if Pipeline.drop s token
  then for_token_in doc word_list (loaded nlp model_name s)
  else match Pipeline.final_lemma s token with
       | Return lemma =>
           for_token_in doc (word_list ++ [[(text token, lemma)]])
                        (loaded nlp model_name s)
       | Raise e => (Raise e, loaded nlp model_name s)
       | Unmodelled => (Unmodelled, loaded nlp model_name s)
       end.
Proof.
  destruct s as [fn fc ci co fw], token as [tx lm al st].
  unfold Pipeline.drop, Pipeline.final_lemma, Pipeline.first_word.
  cbn [for_token_in]. unfold bind, getattr, ret, lift, loaded. cbn.
  destruct al, st, fn, fc, fw; cbn; try reflexivity;
    destruct (item0 _); reflexivity.
Qed.

Lemma for_token_in_loaded (doc : list Token) (word_list : list dict) :
  for_token_in doc word_list (loaded nlp model_name s) =
  ((rest <- Pipeline.emit s (filter (Pipeline.keep s) doc) ;;
    Return (word_list ++ rest))%result,
   loaded nlp model_name s).
Proof.
  revert word_list; induction doc as [|token doc IH]; intros word_list.
  - simpl. unfold ret. now rewrite app_nil_r.
  - rewrite for_token_in_step. cbn [filter]. unfold Pipeline.keep at 1.
    destruct (Pipeline.drop s token); cbn [negb]; [apply IH|].
    cbn [Pipeline.emit].
    destruct (Pipeline.final_lemma s token) as [lemma|e|]; cbn [bind_result];
      try reflexivity.
    rewrite IH.
    destruct (Pipeline.emit s _); cbn [bind_result]; try reflexivity.
    now rewrite <- app_assoc.
Qed.

(** [lemmatize_sentence] on such an instance: annotate, keep, emit. *)
Lemma lemmatize_sentence_loaded (input_str : string) :
  lemmatize_sentence input_str (loaded nlp model_name s) =
  (Pipeline.emit s
     (filter (Pipeline.keep s) (nlp (Pipeline.annotated_text s input_str))),
   loaded nlp model_name s).
Proof.
  unfold lemmatize_sentence, bind, getattr. cbn.
  rewrite for_token_in_loaded. unfold Pipeline.annotated_text.
  destruct (Pipeline.emit _ _); reflexivity.
Qed.

End Loaded.

(** ** split and lower *)

Lemma ws_free_snoc (word : string) (c : ascii) :
  ws_free word = true -> Str.isspace c = false ->
  ws_free (word ++ String c "") = true.
Proof.
  intros Hw Hc. induction word as [|d word IH]; simpl in *.
  - now rewrite Hc.
  - apply andb_true_iff in Hw as [-> Hw]. now apply IH.
Qed.

Lemma is_empty_snoc (word : string) (c : ascii) (s : string) :
  Str.is_empty (word ++ String c s) = false.
Proof. now destruct word. Qed.

(** The words of a split hold no whitespace and are not empty. *)
Lemma split_from_words (s word : string) :
  ws_free word = true ->
  Forall (fun w => ws_free w = true /\ Str.is_empty w = false)
         (Str.split_from word s).
Proof.
  revert word; induction s as [|c s IH]; intros word Hw; simpl.
  - destruct (Str.is_empty word) eqn:E; constructor; [now split | constructor].
  - destruct (Str.isspace c) eqn:Hc.
    + destruct (Str.is_empty word) eqn:E.
      * now apply IH.
      * constructor; [now split | now apply IH].
    + apply IH. now apply ws_free_snoc.
Qed.

(** A string without whitespace is its own only word. *)
Lemma split_from_ws_free (w word : string) :
  ws_free w = true ->
  Str.split_from word w =
  if Str.is_empty (word ++ w) then [] else [(word ++ w)%string].
Proof.
  revert word; induction w as [|c w IH]; intros word; simpl.
  - intros _. now rewrite append_empty_r.
  - intros [Hc Hw]%andb_true_iff. apply negb_true_iff in Hc. rewrite Hc.
    rewrite IH by exact Hw. now rewrite append_assoc.
Qed.

(** Taking the first word twice is taking it once. *)
Lemma first_word_idempotent (lemma w : string) :
  Pipeline.first_word lemma = Return w ->
  Pipeline.first_word w = Return w.
Proof.
  unfold Pipeline.first_word, Str.split. intros H.
  pose proof (split_from_words lemma "" eq_refl) as Hall.
  destruct (Str.split_from "" lemma) as [|w' tl]; [discriminate|].
  injection H as ->. inversion Hall as [|? ? [Hw He] _]; subst.
  rewrite split_from_ws_free by exact Hw. simpl. now rewrite He.
Qed.

Lemma lower_char_idempotent (c : ascii) :
  Str.lower_char (Str.lower_char c) = Str.lower_char c.
Proof. destruct c as [[] [] [] [] [] [] [] []]; reflexivity. Qed.

Lemma lower_idempotent (s : string) : Str.lower (Str.lower s) = Str.lower s.
Proof.
  induction s as [|c s IH]; simpl; [reflexivity|].
  now rewrite lower_char_idempotent, IH.
Qed.

(** ** What is emitted *)

(** A returned list answers the kept tokens one for one, in order. *)
Lemma emit_Forall2 (s : LemmaSettings) (doc : list Token) (out : list dict) :
  Pipeline.emit s doc = Return out ->
  Forall2 (fun token d =>
             exists lemma, Pipeline.final_lemma s token = Return lemma /\
                           d = [(text token, lemma)]) doc out.
Proof.
  revert out; induction doc as [|token doc IH]; intros out; simpl.
  - intros [= <-]. constructor.
  - destruct (Pipeline.final_lemma s token) as [lemma| |] eqn:E;
      cbn [bind_result]; try discriminate.
    destruct (Pipeline.emit s doc) as [rest| |];
      cbn [bind_result]; try discriminate.
    intros [= <-]. constructor; [now exists lemma | now apply IH].
Qed.

Lemma emit_length (s : LemmaSettings) (doc : list Token) (out : list dict) :
  Pipeline.emit s doc = Return out -> length out = length doc.
Proof.
  intros H%emit_Forall2. symmetry. induction H; simpl; congruence.
Qed.

(** The lemma of a token does not depend on the filters. *)
Lemma emit_with_filters (a b : bool) (s : LemmaSettings) (doc : list Token) :
  Pipeline.emit (with_filters a b s) doc = Pipeline.emit s doc.
Proof.
  induction doc as [|token doc IH]; simpl; [reflexivity|]. now rewrite IH.
Qed.

(** Dropping tokens from a run that returns gives a run that returns. *)
Lemma emit_filter (s : LemmaSettings) (f : Token -> bool)
    (doc : list Token) (base : list dict) :
  Pipeline.emit s doc = Return base ->
  exists out, Pipeline.emit s (filter f doc) = Return out /\
              length out <= length base.
Proof.
  revert base; induction doc as [|token doc IH]; intros base; simpl.
  - intros [= <-]. now exists [].
  - destruct (Pipeline.final_lemma s token) as [lemma| |] eqn:E;
      cbn [bind_result]; try discriminate.
    destruct (Pipeline.emit s doc) as [rest| |];
      cbn [bind_result]; try discriminate.
    intros [= <-]. destruct (IH rest eq_refl) as (out & Hout & Hlen).
    destruct (f token); simpl.
    + rewrite E, Hout. cbn [bind_result]. eexists. split; [reflexivity|].
      simpl. lia.
    + exists out. split; [exact Hout | simpl; lia].
Qed.

Lemma keep_without_filters (s : LemmaSettings) (doc : list Token) :
  filter (Pipeline.keep (with_filters false false s)) doc = doc.
Proof.
  assert (Hkeep : forall token,
             Pipeline.keep (with_filters false false s) token = true).
  { intros token. unfold Pipeline.keep, Pipeline.drop. simpl.
    now rewrite !andb_false_r. }
  induction doc as [|token doc IH]; simpl; [reflexivity|].
  now rewrite Hkeep, IH.
Qed.

(** With the first-word option off every kept token is emitted. *)
Lemma emit_whole_lemma (s : LemmaSettings) (doc : list Token) :
  return_just_first_word_of_lemma s = false ->
  Pipeline.emit s doc =
  Return (map (fun token =>
                 [(text token,
                   if convert_output_to_lower s
                   then Str.lower (lemma_ token) else lemma_ token)]) doc).
Proof.
  intros Hfw. induction doc as [|token doc IH]; simpl; [reflexivity|].
  unfold Pipeline.final_lemma. rewrite Hfw, IH. reflexivity.
Qed.

(** With it on, when the run returns, the run with it off returns as many
    dictionaries under the same original tokens. *)
Lemma emit_first_word_same_originals
    (s : LemmaSettings) (doc : list Token) (out : list dict) :
  Pipeline.emit (with_first_word true s) doc = Return out ->
  exists base,
    Pipeline.emit (with_first_word false s) doc = Return base /\
    length base = length out /\
    map Pipeline.original base = map Pipeline.original out.
Proof.
  intros H. rewrite (emit_whole_lemma (with_first_word false s) doc eq_refl).
  eexists. split; [reflexivity|].
  apply emit_Forall2 in H.
  induction H as [|token d doc out [lemma [_ ->]] _ [IHl IHo]]; simpl;
    [now split|].
  split; [f_equal; exact IHl | f_equal; exact IHo].
Qed.

(** ** Bodies that only read *)

Lemma readonly_ret {A} (a : A) : readonly (ret a).
Proof. now intros self. Qed.

Lemma readonly_lift {A} (r : result A) : readonly (lift r).
Proof. now intros self. Qed.

Lemma readonly_getattr {A} (name : string) (field : LemonTizer -> option A) :
  readonly (getattr name field).
Proof. intros self. unfold getattr. now destruct (field self). Qed.

Lemma readonly_bind {A B} (m : M A) (k : A -> M B) :
  readonly m -> (forall a, readonly (k a)) -> readonly (bind m k).
Proof.
  intros Hm Hk self. unfold bind. specialize (Hm self).
  destruct (m self) as [[a|e|] self']; simpl in Hm; subst; [apply Hk | reflexivity..].
Qed.

Ltac read_only :=
  repeat first
    [ apply readonly_ret
    | apply readonly_lift
    | apply readonly_getattr
    | apply readonly_bind; [|intros ?]
    | match goal with
      | |- readonly (if ?b then _ else _) => destruct b
      end ].

Lemma readonly_for_token_in (doc : list Token) (word_list : list dict) :
  readonly (for_token_in doc word_list).
Proof.
  revert word_list; induction doc as [|token doc IH]; intros word_list;
    cbn [for_token_in]; read_only; cbv zeta; read_only; apply IH.
Qed.

(** ** lemmatize_sentence: the claims *)

(** C10.  [lemmatize_sentence] leaves the instance as it found it,
    whatever the input and whether it returns or raises: the five
    options, the model name and the pipeline are those from before the
    call. *)
Theorem lemmatize_sentence_reads_only (input_str : string) (self : LemonTizer) :
  snd (lemmatize_sentence input_str self) = self.
Proof.
  revert self. change (readonly (lemmatize_sentence input_str)).
  unfold lemmatize_sentence. read_only. cbv zeta. read_only.
  apply readonly_for_token_in.
Qed.

(** With the first-word option off, one dictionary is returned for each
    token that is not dropped, in the order of the tokens, and nothing
    for a dropped one. *)
Lemma lemmatize_sentence_whole_lemma
    (nlp : Language) (model_name : string) (s : LemmaSettings)
    (input_str : string) :
  return_just_first_word_of_lemma s = false ->
  lemmatize_sentence input_str (loaded nlp model_name s) =
  (Return
     (map (fun token =>
             [(text token,
               if convert_output_to_lower s
               then Str.lower (lemma_ token) else lemma_ token)])
          (filter (fun token => negb (Pipeline.drop s token))
                  (nlp (Pipeline.annotated_text s input_str)))),
   loaded nlp model_name s).
Proof.
  intros Hfw. rewrite lemmatize_sentence_loaded.
  now rewrite emit_whole_lemma by exact Hfw.
Qed.

(** C2, at the input where the code leaves it.  With the first-word
    option on and both filters off, no token of [cats], two spaces,
    [purr] is dropped, yet no dictionary is emitted: the lemma of the
    space token has no word, [split()[0]] raises [IndexError], and the
    run ends without a list. *)
Theorem lemmatize_sentence_kept_tokens_not_emitted :
  Pipeline.drop Examples.first_word_only Examples.cats = false /\
  Pipeline.drop Examples.first_word_only Examples.gap = false /\
  Pipeline.drop Examples.first_word_only Examples.purr = false /\
  fst (lemmatize_sentence "cats  purr"
         (loaded (Examples.annotator [Examples.cats; Examples.gap; Examples.purr])
                 "en_core_web_lg" Examples.first_word_only))
  = Raise IndexError.
Proof. repeat split. Qed.

(** C4, at the inputs where the code leaves it.  With the first-word
    option on, a kept token whose lemma is empty, or is whitespace only,
    makes [lemmatize_sentence] raise [IndexError]. *)
Theorem lemmatize_sentence_raises_IndexError :
  fst (lemmatize_sentence "Hello"
         (loaded (Examples.annotator [Examples.hello]) "xx_sent_ud_sm"
                 Examples.first_word_only))
  = Raise IndexError /\
  fst (lemmatize_sentence " "
         (loaded (Examples.annotator [Examples.gap]) "en_core_web_lg"
                 Examples.first_word_only))
  = Raise IndexError.
Proof. split; reflexivity. Qed.

(** Whatever the other three options: when the run with both filters
    off returns a list, the run with the filters set in any way returns a
    list too, and not a longer one. *)
Theorem lemmatize_sentence_filters_monotonic
    (nlp : Language) (model_name : string) (s : LemmaSettings)
    (non_alpha common : bool) (input_str : string) (base : list dict) :
  fst (lemmatize_sentence input_str
         (loaded nlp model_name (with_filters false false s))) = Return base ->
  exists out,
    fst (lemmatize_sentence input_str
           (loaded nlp model_name (with_filters non_alpha common s)))
    = Return out /\
    length out <= length base.
Proof.
  rewrite !lemmatize_sentence_loaded. cbn [fst].
  rewrite keep_without_filters, !emit_with_filters.
  change (Pipeline.annotated_text (with_filters _ _ s) input_str)
    with (Pipeline.annotated_text s input_str).
  change (Pipeline.annotated_text (with_filters false false s) input_str)
    with (Pipeline.annotated_text s input_str).
  apply emit_filter.
Qed.

Lemma lemmatize_sentence_filters_monotonic_witness :
  exists out,
    fst (lemmatize_sentence "The, cats"
           (loaded (Examples.annotator [Examples.the; Examples.comma; Examples.cats])
                   "en_core_web_lg" Examples.both_filters))
    = Return out /\
    length out <= 3.
Proof.
  apply (lemmatize_sentence_filters_monotonic
           (Examples.annotator [Examples.the; Examples.comma; Examples.cats])
           "en_core_web_lg" default_settings true true "The, cats"
           [[("The", "the")]; [(",", ",")]; [("cats", "cat")]]).
  reflexivity.
Defined.

(** C7, at the input where the code leaves it.  On [cats], two spaces,
    [purr] with the first-word option on, the run with both filters off
    raises [IndexError] at the space token and emits nothing, while the
    run with [filter_out_non_alpha] on skips that token and returns two
    dictionaries: switching a filter on gave more output, not less. *)
Theorem lemmatize_sentence_filter_gains_output :
  fst (lemmatize_sentence "cats  purr"
         (loaded (Examples.annotator [Examples.cats; Examples.gap; Examples.purr])
                 "en_core_web_lg"
                 (with_filters false false Examples.first_word_only)))
  = Raise IndexError /\
  fst (lemmatize_sentence "cats  purr"
         (loaded (Examples.annotator [Examples.cats; Examples.gap; Examples.purr])
                 "en_core_web_lg"
                 (with_filters true false Examples.first_word_only)))
  = Return [[("cats", "cat")]; [("purr", "purr")]].
Proof. split; reflexivity. Qed.

(** With the first-word option on, when the run returns, the run with it
    off returns as many dictionaries, under the same original tokens. *)
Lemma lemmatize_sentence_first_word_same_count
    (nlp : Language) (model_name : string) (s : LemmaSettings)
    (input_str : string) (out : list dict) :
  fst (lemmatize_sentence input_str
         (loaded nlp model_name (with_first_word true s))) = Return out ->
  exists base,
    fst (lemmatize_sentence input_str
           (loaded nlp model_name (with_first_word false s))) = Return base /\
    length base = length out /\
    map Pipeline.original base = map Pipeline.original out.
Proof.
  rewrite !lemmatize_sentence_loaded. cbn [fst].
  apply emit_first_word_same_originals.
Qed.

(** C8, at the input where the code leaves it.  On [cats], two spaces,
    [purr] the run with the first-word option off returns three
    dictionaries; the run with it on returns none, it raises
    [IndexError] at the space token. *)
Theorem lemmatize_sentence_first_word_loses_output :
  fst (lemmatize_sentence "cats  purr"
         (loaded (Examples.annotator [Examples.cats; Examples.gap; Examples.purr])
                 "en_core_web_lg" (with_first_word false default_settings)))
  = Return [[("cats", "cat")]; [(" ", " ")]; [("purr", "purr")]] /\
  fst (lemmatize_sentence "cats  purr"
         (loaded (Examples.annotator [Examples.cats; Examples.gap; Examples.purr])
                 "en_core_web_lg" (with_first_word true default_settings)))
  = Raise IndexError.
Proof. split; reflexivity. Qed.

(** Every returned dictionary is keyed by the text of one of the tokens. *)
Lemma emit_originals (s : LemmaSettings) (doc : list Token) (out : list dict) :
  Pipeline.emit s doc = Return out ->
  Forall (fun d =>
            exists token,
              In token doc /\ Pipeline.original d = Some (text token)) out.
Proof.
  intros H%emit_Forall2.
  induction H as [|token d doc out [lemma [_ ->]] _ IH]; constructor.
  - exists token. split; [now left | reflexivity].
  - revert IH. apply Forall_impl. intros d (t & Hin & Hd).
    exists t. split; [now right | exact Hd].
Qed.

(** C9.  With [convert_input_to_lower] on, it is the lowercased input
    that is annotated: the outcome is the one computed from the tokens of
    [input_str.lower()], a returned list is keyed, entry by entry, by the
    texts of the kept tokens of the lowercased input, and two inputs that
    differ in case only have the same outcome. *)
Theorem lemmatize_sentence_lowercases_input
    (nlp : Language) (model_name : string) (s : LemmaSettings)
    (input_str : string) :
  convert_input_to_lower s = true ->
  lemmatize_sentence input_str (loaded nlp model_name s) =
  (Pipeline.emit s
     (filter (fun token => negb (Pipeline.drop s token))
             (nlp (Str.lower input_str))),
   loaded nlp model_name s) /\
  (forall out,
      fst (lemmatize_sentence input_str (loaded nlp model_name s)) = Return out ->
      map Pipeline.original out =
      map (fun token => Some (text token))
          (filter (fun token => negb (Pipeline.drop s token))
                  (nlp (Str.lower input_str)))) /\
  (forall other,
      Str.lower other = Str.lower input_str ->
      lemmatize_sentence other (loaded nlp model_name s) =
      lemmatize_sentence input_str (loaded nlp model_name s)).
Proof.
  intros Hci.
  assert (Hrun : forall text,
             lemmatize_sentence text (loaded nlp model_name s) =
             (Pipeline.emit s
                (filter (Pipeline.keep s) (nlp (Str.lower text))),
              loaded nlp model_name s)).
  { intros text. rewrite lemmatize_sentence_loaded.
    unfold Pipeline.annotated_text. now rewrite Hci. }
  split; [apply Hrun | split].
  - intros out. rewrite Hrun. cbn [fst]. intros H%emit_Forall2.
    change (fun token => negb (Pipeline.drop s token)) with (Pipeline.keep s).
    induction H as [|token d doc out' [lemma [_ ->]] _ IH]; simpl;
      [reflexivity | now f_equal].
  - intros other Hsame. now rewrite !Hrun, Hsame.
Qed.

(** On [The Cats] it is [the cats] that is split into tokens. *)
Lemma lemmatize_sentence_lowercases_input_witness :
  lemmatize_sentence "The Cats"
    (loaded Examples.words "en_core_web_lg" Examples.lower_input_only) =
  (Return [[("the", "the")]; [("cats", "cats")]],
   loaded Examples.words "en_core_web_lg" Examples.lower_input_only).
Proof.
  exact (proj1 (lemmatize_sentence_lowercases_input
                  Examples.words "en_core_web_lg" Examples.lower_input_only
                  "The Cats" eq_refl)).
Defined.

(** ** init_model *)

(** An instance handed out by the constructor has every attribute
    assigned, the options at their defaults. *)
Lemma new_loaded (sp : spacy) (language model_size : string) (self : LemonTizer) :
  new sp language model_size = Return self ->
  exists nlp model_name,
    find_model_name sp language model_size = Return model_name /\
    load sp model_name = inr nlp /\
    self = loaded nlp model_name default_settings.
Proof.
  unfold new, __init__, init_model, bind, lift, set_lemma_settings. cbn.
  destruct (find_model_name sp language model_size) as [model_name|e|];
    try discriminate.
  unfold is_model_installed, download_model, _load_model, bind, lift,
    assign_model_name, assign_nlp.
  destruct (is_package sp model_name); cbn;
    [|destruct (cli_download sp model_name); cbn; try discriminate];
    (destruct (load sp model_name) as [e|nlp] eqn:E; cbn; try discriminate;
     intros [= <-]; now exists nlp, model_name).
Qed.

(** C5, as amended.  When the resolution fails, [init_model] raises the
    resolver's exception with the model name and the pipeline of the
    instance as they were, and with the five options reset to their
    defaults, since the defaults are assigned before the model is looked
    up; a construction that fails this way hands out no instance. *)
Theorem init_model_failed_resolution
    (sp : spacy) (language model_size : string) (self : LemonTizer)
    (e : exception) :
  find_model_name sp language model_size = Raise e ->
  init_model sp language model_size self =
  (Raise e,
   {| _nlp := _nlp self;
      _model_name := _model_name self;
      _filter_out_non_alpha := Some false;
      _filter_out_common := Some false;
      _convert_input_to_lower := Some false;
      _convert_output_to_lower := Some false;
      _return_just_first_word_of_lemma := Some false |}) /\
  new sp language model_size = Raise e.
Proof.
  intros H. unfold new, __init__, init_model, bind, lift, set_lemma_settings.
  rewrite H. split; reflexivity.
Qed.

Lemma init_model_failed_resolution_witness :
  init_model (Examples.store Examples.catalog) "fr" "lg"
    (loaded (Examples.annotator []) "en_core_web_lg" Examples.both_filters) =
  (Raise (UnsupportedLanguage "fr" "lg"),
   loaded (Examples.annotator []) "en_core_web_lg" default_settings) /\
  new (Examples.store Examples.catalog) "fr" "lg"
  = Raise (UnsupportedLanguage "fr" "lg").
Proof.
  apply (init_model_failed_resolution
           (Examples.store Examples.catalog) "fr" "lg"
           (loaded (Examples.annotator []) "en_core_web_lg" Examples.both_filters)
           (UnsupportedLanguage "fr" "lg")).
  reflexivity.
Defined.

(** C5 as it is worded fails.  An instance with both filters on is asked
    to switch to a language the catalog does not have: the call raises,
    and the instance is left with both filters off. *)
Lemma init_model_failure_resets_settings :
  find_model_name (Examples.store Examples.catalog) "fr" "lg"
  = Raise (UnsupportedLanguage "fr" "lg") /\
  _filter_out_common
    (loaded (Examples.annotator []) "en_core_web_lg" Examples.both_filters)
  = Some true /\
  _filter_out_common
    (snd (init_model (Examples.store Examples.catalog) "fr" "lg"
            (loaded (Examples.annotator []) "en_core_web_lg"
                    Examples.both_filters)))
  = Some false.
Proof. repeat split. Qed.

(** ** The specification's end-to-end examples *)

Example resolve_en_lg :
  find_model_name (Examples.store Examples.catalog) "en" "lg"
  = Return "en_core_web_lg".
Proof. reflexivity. Qed.

Example resolve_fr_lg :
  find_model_name (Examples.store Examples.catalog) "fr" "lg"
  = Raise (UnsupportedLanguage "fr" "lg").
Proof. reflexivity. Qed.

Example resolve_es_sm :
  find_model_name (Examples.store Examples.catalog) "es" "sm"
  = Raise (UnsupportedModelSize "es" "sm").
Proof. reflexivity. Qed.

Example lemmatize_both_filters :
  fst (lemmatize_sentence "The, cats"
         (loaded (Examples.annotator [Examples.the; Examples.comma; Examples.cats])
                 "en_core_web_lg" Examples.both_filters))
  = Return [[("cats", "cat")]].
Proof. reflexivity. Qed.

Example lemmatize_output_to_lower :
  fst (lemmatize_sentence "The, cats"
         (loaded (Examples.annotator [Examples.the; Examples.comma; Examples.cats])
                 "en_core_web_lg"
                 {| filter_out_non_alpha := false; filter_out_common := false;
                    convert_input_to_lower := false;
                    convert_output_to_lower := true;
                    return_just_first_word_of_lemma := false |}))
  = Return [[("The", "the")]; [(",", ",")]; [("cats", "cat")]].
Proof. reflexivity. Qed.

(** * Beyond the claims *)

(** ** init_model, the constructor and the accessors *)

Lemma init_model_success
    (sp : spacy) (language model_size : string) (self : LemonTizer)
    (model_name : string) (nlp : Language) :
  find_model_name sp language model_size = Return model_name ->
  is_package sp model_name = true \/ cli_download sp model_name = None ->
  load sp model_name = inr nlp ->
  init_model sp language model_size self =
  (Return tt, loaded nlp model_name default_settings).
Proof.
  intros Hfind Hstore Hload.
  unfold init_model, bind, lift, set_lemma_settings. rewrite Hfind.
  unfold is_model_installed, download_model, _load_model, bind, lift,
    assign_model_name, assign_nlp.
  destruct Hstore as [-> | Hdl].
  - now rewrite Hload.
  - rewrite Hdl, Hload. now destruct (is_package sp model_name).
Qed.

(** When the model is resolved, is installed or downloads, and loads,
    [init_model] returns and leaves the instance with that pipeline, that
    name and the default options, whatever it held before. *)
Theorem init_model_loads
    (sp : spacy) (language model_size : string) (self : LemonTizer)
    (model_name : string) (nlp : Language) :
  find_model_name sp language model_size = Return model_name ->
  is_package sp model_name = true \/ cli_download sp model_name = None ->
  load sp model_name = inr nlp ->
  init_model sp language model_size self =
  (Return tt, loaded nlp model_name default_settings).
Proof. apply init_model_success. Qed.

Lemma init_model_loads_witness :
  init_model
    (Examples.single "en_core_web_lg" false None (inr Examples.words))
    "en" "lg"
    (loaded (Examples.annotator []) "es_core_news_lg" Examples.both_filters) =
  (Return tt, loaded Examples.words "en_core_web_lg" default_settings).
Proof.
  apply (init_model_loads
           (Examples.single "en_core_web_lg" false None (inr Examples.words))
           "en" "lg"
           (loaded (Examples.annotator []) "es_core_news_lg" Examples.both_filters)
           "en_core_web_lg" Examples.words);
    [reflexivity | right; reflexivity | reflexivity].
Defined.

(** When the resolved model is not installed and its download raises,
    [init_model] raises the same exception without loading anything: the
    pipeline and the model name are the old ones, the options are the
    defaults. *)
Theorem init_model_download_fails
    (sp : spacy) (language model_size : string) (self : LemonTizer)
    (model_name : string) (e : exception) :
  find_model_name sp language model_size = Return model_name ->
  is_package sp model_name = false ->
  cli_download sp model_name = Some e ->
  init_model sp language model_size self =
  (Raise e,
   {| _nlp := _nlp self;
      _model_name := _model_name self;
      _filter_out_non_alpha := Some false;
      _filter_out_common := Some false;
      _convert_input_to_lower := Some false;
      _convert_output_to_lower := Some false;
      _return_just_first_word_of_lemma := Some false |}).
Proof.
  intros Hfind Hpkg Hdl.
  unfold init_model, bind, lift, set_lemma_settings. rewrite Hfind.
  unfold is_model_installed, download_model, bind, lift.
  now rewrite Hpkg, Hdl.
Qed.

Lemma init_model_download_fails_witness :
  init_model
    (Examples.single "en_core_web_lg" false (Some (SpacyError "download"))
                     (inr Examples.words))
    "en" "lg"
    (loaded (Examples.annotator []) "es_core_news_lg" Examples.both_filters) =
  (Raise (SpacyError "download"),
   loaded (Examples.annotator []) "es_core_news_lg" default_settings).
Proof.
  apply (init_model_download_fails
           (Examples.single "en_core_web_lg" false (Some (SpacyError "download"))
                            (inr Examples.words))
           "en" "lg"
           (loaded (Examples.annotator []) "es_core_news_lg" Examples.both_filters)
           "en_core_web_lg" (SpacyError "download"));
    reflexivity.
Defined.

(** When the loading raises, [init_model] raises the same exception with
    the model name already replaced and the pipeline still the old one:
    [_load_model] assigns the name before it loads. *)
Theorem init_model_load_fails
    (sp : spacy) (language model_size : string) (self : LemonTizer)
    (model_name : string) (e : exception) :
  find_model_name sp language model_size = Return model_name ->
  is_package sp model_name = true \/ cli_download sp model_name = None ->
  load sp model_name = inl e ->
  init_model sp language model_size self =
  (Raise e,
   {| _nlp := _nlp self;
      _model_name := Some model_name;
      _filter_out_non_alpha := Some false;
      _filter_out_common := Some false;
      _convert_input_to_lower := Some false;
      _convert_output_to_lower := Some false;
      _return_just_first_word_of_lemma := Some false |}).
Proof.
  intros Hfind Hstore Hload.
  unfold init_model, bind, lift, set_lemma_settings. rewrite Hfind.
  unfold is_model_installed, download_model, _load_model, bind, lift,
    assign_model_name, assign_nlp.
  destruct Hstore as [-> | Hdl].
  - now rewrite Hload.
  - rewrite Hdl, Hload. now destruct (is_package sp model_name).
Qed.

Lemma init_model_load_fails_witness :
  init_model
    (Examples.single "en_core_web_lg" true None (inl (SpacyError "load")))
    "en" "lg"
    (loaded Examples.words "es_core_news_lg" default_settings) =
  (Raise (SpacyError "load"),
   loaded Examples.words "en_core_web_lg" default_settings).
Proof.
  apply (init_model_load_fails
           (Examples.single "en_core_web_lg" true None (inl (SpacyError "load")))
           "en" "lg"
           (loaded Examples.words "es_core_news_lg" default_settings)
           "en_core_web_lg" (SpacyError "load"));
    [reflexivity | left; reflexivity | reflexivity].
Defined.

(** A model that is installed is never downloaded: what the download
    would answer has no part in the outcome. *)
Theorem init_model_installed_skips_download
    (sp sp' : spacy) (language model_size : string) (self : LemonTizer)
    (model_name : string) :
  get_compatibility sp' = get_compatibility sp ->
  load sp' model_name = load sp model_name ->
  find_model_name sp language model_size = Return model_name ->
  is_package sp model_name = true ->
  is_package sp' model_name = true ->
  init_model sp' language model_size self =
  init_model sp language model_size self.
Proof.
  intros Hcat Hload Hfind Hpkg Hpkg'.
  assert (Hfind' : find_model_name sp' language model_size = Return model_name).
  { rewrite <- Hfind. unfold find_model_name, get_available_models.
    now rewrite Hcat. }
  unfold init_model, bind, lift, set_lemma_settings. rewrite Hfind, Hfind'.
  unfold is_model_installed, _load_model, bind, lift. cbn.
  now rewrite Hpkg, Hpkg', Hload.
Qed.

Lemma init_model_installed_skips_download_witness :
  init_model
    (Examples.single "en_core_web_lg" true (Some (SpacyError "download"))
                     (inr Examples.words))
    "en" "lg" fresh =
  init_model
    (Examples.single "en_core_web_lg" true None (inr Examples.words))
    "en" "lg" fresh.
Proof.
  apply (init_model_installed_skips_download
           (Examples.single "en_core_web_lg" true None (inr Examples.words))
           (Examples.single "en_core_web_lg" true (Some (SpacyError "download"))
                            (inr Examples.words))
           "en" "lg" fresh "en_core_web_lg");
    reflexivity.
Defined.

(** The constructor hands out an instance exactly when the model is
    resolved, is installed or downloads, and loads; the instance then
    holds that pipeline under that name with the default options. *)
Theorem new_returns (sp : spacy) (language model_size : string)
    (self : LemonTizer) :
  new sp language model_size = Return self <->
  exists model_name nlp,
    find_model_name sp language model_size = Return model_name /\
    (is_package sp model_name = true \/ cli_download sp model_name = None) /\
    load sp model_name = inr nlp /\
    self = loaded nlp model_name default_settings.
Proof.
  split.
  - unfold new, __init__, init_model, bind, lift, set_lemma_settings. cbn.
    destruct (find_model_name sp language model_size) as [model_name|e|];
      try discriminate.
    unfold is_model_installed, download_model, _load_model, bind, lift,
      assign_model_name, assign_nlp.
    destruct (is_package sp model_name) eqn:Hpkg; cbn.
    + destruct (load sp model_name) as [e|nlp] eqn:E; cbn; try discriminate.
      intros [= <-]. exists model_name, nlp. now repeat split; try left.
    + destruct (cli_download sp model_name) eqn:Hdl; cbn; try discriminate.
      destruct (load sp model_name) as [e|nlp] eqn:E; cbn; try discriminate.
      intros [= <-]. exists model_name, nlp. now repeat split; try right.
  - intros (model_name & nlp & Hfind & Hstore & Hload & ->).
    unfold new, __init__.
    now rewrite (init_model_success sp language model_size fresh model_name nlp).
Qed.

(** On a constructed instance the accessors give back what the
    construction stored, the resolved name and the loaded pipeline, and
    leave the instance alone. *)
Theorem accessors_after_new (sp : spacy) (language model_size : string)
    (self : LemonTizer) :
  new sp language model_size = Return self ->
  exists model_name nlp,
    find_model_name sp language model_size = Return model_name /\
    load sp model_name = inr nlp /\
    get_current_model_name self = (Return model_name, self) /\
    get_spacy_object self = (Return nlp, self).
Proof.
  intros (nlp & model_name & Hfind & Hload & ->)%new_loaded.
  exists model_name, nlp. now repeat split.
Qed.

Lemma accessors_after_new_witness :
  exists model_name nlp,
    find_model_name (Examples.store Examples.catalog) "en" "lg"
    = Return model_name /\
    load (Examples.store Examples.catalog) model_name = inr nlp /\
    get_current_model_name
      (loaded (Examples.annotator []) "en_core_web_lg" default_settings)
    = (Return model_name,
       loaded (Examples.annotator []) "en_core_web_lg" default_settings) /\
    get_spacy_object
      (loaded (Examples.annotator []) "en_core_web_lg" default_settings)
    = (Return nlp,
       loaded (Examples.annotator []) "en_core_web_lg" default_settings).
Proof.
  apply (accessors_after_new (Examples.store Examples.catalog) "en" "lg"
           (loaded (Examples.annotator []) "en_core_web_lg" default_settings)).
  reflexivity.
Defined.

(** ** find_model_name on any codes *)

Lemma filter_head_In {A} (f : A -> bool) (l : list A) (x : A) (tl : list A) :
  filter f l = x :: tl -> In x l /\ f x = true.
Proof.
  intros H. apply filter_In. rewrite H. now left.
Qed.

Lemma is_modelled_lower_char (c : ascii) :
  Re.is_modelled (Str.lower_char c) = Re.is_modelled c.
Proof. destruct c as [[] [] [] [] [] [] [] []]; reflexivity. Qed.

Lemma modelled_lower (s : string) : Re.modelled (Str.lower s) = Re.modelled s.
Proof.
  induction s as [|c s IH]; simpl; [reflexivity|].
  now rewrite is_modelled_lower_char, IH.
Qed.

Lemma modelled_append (a b : string) :
  Re.modelled (a ++ b) = Re.modelled a && Re.modelled b.
Proof.
  induction a as [|c a IH]; simpl; [reflexivity|].
  now rewrite IH, andb_assoc.
Qed.

(** The parser has an answer for every pattern of the embedded syntax. *)
Lemma parse_modelled (s : string) (seen : list Re.item) :
  Re.modelled s = true -> Re.parse seen s <> Unmodelled.
Proof.
  revert seen; induction s as [|c s IH]; intros seen; simpl; [discriminate|].
  intros [Hc Hs]%andb_true_iff. rewrite Hc. simpl.
  destruct (Re.lone_backslash s); [discriminate|].
  destruct (Ascii.eqb c "."); [now apply IH|].
  destruct (Ascii.eqb c "^"); [now apply IH|].
  destruct (Ascii.eqb c "*"); [|now apply IH].
  destruct seen as [|[a|a|] seen]; try discriminate. now apply IH.
Qed.

(** For language and size codes made of ordinary characters, [.], [^]
    and [*], the call has an outcome here, and a name that it returns is
    an entry of the compatibility table, one that the expression built
    from the lowercased codes matches. *)
Theorem find_model_name_returns_entry
    (sp : spacy) (language model_size : string) :
  Re.modelled language = true ->
  Re.modelled model_size = true ->
  find_model_name sp language model_size <> Unmodelled /\
  forall output,
    find_model_name sp language model_size = Return output ->
    In output (get_compatibility sp) /\
    exists regex,
      Re.compile (Str.lower language ++ ".*" ++ Str.lower model_size)
      = Return regex /\
      Re.match_ regex output = true.
Proof.
  intros Hl Hz. rewrite <- modelled_lower in Hl, Hz.
  assert (Hfull : Re.compile (Str.lower language ++ ".*" ++ Str.lower model_size)
                  <> Unmodelled).
  { apply parse_modelled. rewrite !modelled_append, Hl, Hz. reflexivity. }
  assert (Hpre : Re.compile ("^" ++ Str.lower language) <> Unmodelled).
  { apply parse_modelled. rewrite modelled_append, Hl. reflexivity. }
  unfold find_model_name, get_available_models. cbv zeta.
  destruct (Re.compile (Str.lower language ++ ".*" ++ Str.lower model_size))
    as [regex|e|]; cbn [bind_result]; [| split; discriminate | now elim Hfull].
  destruct (filter (Re.match_ regex) (get_compatibility sp)) as [|x tl] eqn:E.
  - destruct (Re.compile ("^" ++ Str.lower language)); cbn [bind_result];
      [split; discriminate | split; discriminate | now elim Hpre].
  - split; [discriminate|]. intros output [= <-].
    apply filter_head_In in E as [Hin Hm].
    split; [exact Hin | now exists regex].
Qed.

Lemma find_model_name_returns_entry_witness :
  find_model_name (Examples.store Examples.catalog) "e." "LG" <> Unmodelled /\
  forall output,
    find_model_name (Examples.store Examples.catalog) "e." "LG" = Return output ->
    In output Examples.catalog /\
    exists regex,
      Re.compile (Str.lower "e." ++ ".*" ++ Str.lower "LG") = Return regex /\
      Re.match_ regex output = true.
Proof.
  apply (find_model_name_returns_entry
           (Examples.store Examples.catalog) "e." "LG");
    reflexivity.
Defined.

(** The codes are compared in lowercase: two calls whose codes differ in
    case only have the same outcome on the same table. *)
Theorem find_model_name_ignores_case
    (sp : spacy) (language language' model_size model_size' : string) :
  Str.lower language' = Str.lower language ->
  Str.lower model_size' = Str.lower model_size ->
  find_model_name sp language' model_size' =
  find_model_name sp language model_size.
Proof.
  intros Hl Hz. unfold find_model_name. cbv zeta. now rewrite Hl, Hz.
Qed.

Lemma find_model_name_ignores_case_witness :
  find_model_name (Examples.store Examples.catalog) "En" "LG" =
  find_model_name (Examples.store Examples.catalog) "en" "lg".
Proof.
  apply (find_model_name_ignores_case
           (Examples.store Examples.catalog) "en" "En" "lg" "LG");
    reflexivity.
Defined.

(** The entries themselves are not lowercased: for codes without special
    characters, an entry whose first character is a capital A-Z is never
    returned. *)
Theorem find_model_name_skips_capitalised
    (sp : spacy) (language model_size : string) (c : ascii) (rest : string) :
  Re.plain language = true ->
  Re.plain model_size = true ->
  Str.is_empty language = false ->
  (65 <=? N_of_ascii c)%N && (N_of_ascii c <=? 90)%N = true ->
  find_model_name sp language model_size <> Return (String c rest).
Proof.
  intros Hl Hz Hne Hc Hfind.
  rewrite find_model_name_plain in Hfind by assumption. cbv zeta in Hfind.
  destruct (filter _ _) as [|x tl] eqn:E; [now destruct (existsb _ _)|].
  injection Hfind as ->. apply filter_head_In in E as [_ Hfull].
  unfold Rule.full in Hfull.
  destruct language as [|a language]; [discriminate|]. simpl in Hfull.
  destruct (Ascii.eqb_spec (Str.lower_char a) c) as [<-|]; [|discriminate].
  clear -Hc. destruct a as [[] [] [] [] [] [] [] []]; discriminate.
Qed.

Lemma find_model_name_skips_capitalised_witness :
  find_model_name (Examples.store ["En_core_web_lg"]) "en" "lg"
  <> Return "En_core_web_lg".
Proof.
  apply (find_model_name_skips_capitalised
           (Examples.store ["En_core_web_lg"]) "en" "lg" "E" "n_core_web_lg");
    reflexivity.
Defined.

(** The first match wins: entries added after the table's last one never
    change a name that was returned. *)
Theorem find_model_name_longer_catalog
    (sp sp' : spacy) (more : list string)
    (language model_size output : string) :
  get_compatibility sp' = get_compatibility sp ++ more ->
  find_model_name sp language model_size = Return output ->
  find_model_name sp' language model_size = Return output.
Proof.
  intros Hcat. unfold find_model_name, get_available_models. cbv zeta.
  destruct (Re.compile (Str.lower language ++ ".*" ++ Str.lower model_size))
    as [regex|e|]; cbn [bind_result]; try discriminate.
  rewrite Hcat, filter_app.
  destruct (filter (Re.match_ regex) (get_compatibility sp)) as [|x tl].
  - destruct (Re.compile ("^" ++ Str.lower language)); discriminate.
  - now intros [= <-].
Qed.

Lemma find_model_name_longer_catalog_witness :
  find_model_name
    (Examples.store (Examples.catalog ++ ["en_core_web_trf_lg"])) "en" "lg"
  = Return "en_core_web_lg".
Proof.
  apply (find_model_name_longer_catalog
           (Examples.store Examples.catalog)
           (Examples.store (Examples.catalog ++ ["en_core_web_trf_lg"]))
           ["en_core_web_trf_lg"] "en" "lg" "en_core_web_lg");
    reflexivity.
Defined.

Lemma full_prefix (l z e : string) :
  Rule.full l z e = true -> Rule.prefix l e = true.
Proof.
  unfold Rule.full, Rule.prefix. rewrite strip_prefix_startswith.
  now destruct (Str.strip_prefix l e).
Qed.

(** For codes without special characters: a language that resolves with
    one size code is never reported as unsupported with another; the
    other size resolves too, or it is the size that is reported. *)
Theorem find_model_name_language_known
    (sp : spacy) (language model_size other_size output : string) :
  Re.plain language = true ->
  Re.plain model_size = true ->
  Re.plain other_size = true ->
  find_model_name sp language model_size = Return output ->
  (exists output', find_model_name sp language other_size = Return output') \/
  find_model_name sp language other_size =
  Raise (UnsupportedModelSize (Str.lower language) (Str.lower other_size)).
Proof.
  intros Hl Hz Hz' Hfind.
  rewrite find_model_name_plain in Hfind by assumption. cbv zeta in Hfind.
  rewrite find_model_name_plain by assumption. cbv zeta.
  destruct (filter (Rule.full _ (Str.lower model_size)) _) as [|x tl] eqn:E;
    [now destruct (existsb _ _)|].
  injection Hfind as ->. apply filter_head_In in E as [Hin Hfull].
  apply full_prefix in Hfull.
  destruct (filter (Rule.full _ (Str.lower other_size)) _) as [|y tl'].
  - right. replace (existsb _ _) with true; [reflexivity|].
    symmetry. apply existsb_exists. now exists output.
  - left. now exists y.
Qed.

Lemma find_model_name_language_known_witness :
  (exists output',
      find_model_name (Examples.store Examples.catalog) "es" "sm"
      = Return output') \/
  find_model_name (Examples.store Examples.catalog) "es" "sm" =
  Raise (UnsupportedModelSize (Str.lower "es") (Str.lower "sm")).
Proof.
  apply (find_model_name_language_known
           (Examples.store Examples.catalog) "es" "lg" "sm" "es_core_news_lg");
    reflexivity.
Defined.

Lemma full_empty_size (l e : string) : Rule.full l "" e = Rule.prefix l e.
Proof.
  unfold Rule.full, Rule.prefix. rewrite strip_prefix_startswith.
  destruct (Str.strip_prefix l e) as [tail|]; [|reflexivity].
  now destruct tail.
Qed.

(** With an empty size code and a language code without special
    characters, the first entry that starts with the language code is
    returned, and the only failure left is the unsupported language. *)
Theorem find_model_name_empty_size (sp : spacy) (language : string) :
  Re.plain language = true ->
  find_model_name sp language "" =
  match filter (Rule.prefix (Str.lower language)) (get_compatibility sp) with
  | output :: _ => Return output
  | [] => Raise (UnsupportedLanguage (Str.lower language) "")
  end.
Proof.
  intros Hl. rewrite find_model_name_plain by (assumption || reflexivity).
  cbv zeta. change (Str.lower "") with "".
  rewrite (filter_ext_eq (Rule.full (Str.lower language) "")
                         (Rule.prefix (Str.lower language)))
    by (intros x; apply full_empty_size).
  pose proof (filter_nil_existsb (Rule.prefix (Str.lower language))
                                 (get_compatibility sp)) as H.
  destruct (filter _ _); [now rewrite H | reflexivity].
Qed.

Lemma find_model_name_empty_size_witness :
  find_model_name (Examples.store Examples.catalog) "es" ""
  = Return "es_core_news_lg" /\
  find_model_name (Examples.store Examples.catalog) "fr" ""
  = Raise (UnsupportedLanguage "fr" "").
Proof.
  split.
  - apply (find_model_name_empty_size (Examples.store Examples.catalog) "es").
    reflexivity.
  - apply (find_model_name_empty_size (Examples.store Examples.catalog) "fr").
    reflexivity.
Defined.

Lemma lone_backslash_long (r : string) (a b : ascii) (t : string) :
  Re.lone_backslash (r ++ String a (String b t)) = false.
Proof. destruct r as [|c [|c' r]]; reflexivity. Qed.

(** A star at the head of the language code leaves nothing to repeat:
    the call raises [re.error] whatever the size code and the table. *)
Theorem find_model_name_star_language
    (sp : spacy) (model_size rest : string) :
  find_model_name sp (String "*" rest) model_size
  = Raise (re_error "nothing to repeat").
Proof.
  unfold find_model_name, Re.compile. cbv zeta.
  change (Str.lower (String "*" rest)) with (String "*" (Str.lower rest)).
  change (String "*" (Str.lower rest) ++ ".*" ++ Str.lower model_size)%string
    with (String "*" (Str.lower rest ++
                      String "." (String "*" (Str.lower model_size)))).
  cbn [Re.parse]. now rewrite lone_backslash_long.
Qed.

Lemma backslash_lower_char (c : ascii) :
  Ascii.eqb (Str.lower_char c) "\" = Ascii.eqb c "\".
Proof. destruct c as [[] [] [] [] [] [] [] []]; reflexivity. Qed.

Lemma lone_backslash_lower (rest : string) :
  Re.lone_backslash (Str.lower rest) = String.eqb rest "\".
Proof.
  destruct rest as [|c [|c' rest]]; simpl; try reflexivity.
  - rewrite backslash_lower_char. now destruct (Ascii.eqb c "\").
  - now destruct (Ascii.eqb c "\").
Qed.

(** A star at the head of the size code, after a language code without
    special characters, follows the star of [.*]: the call raises
    [re.error] whatever the table, for a repeated repetition, or, when
    the size code is the star and one backslash, for the backslash that
    ends the expression, which the parser has read by then. *)
Theorem find_model_name_star_size
    (sp : spacy) (language rest : string) :
  Re.plain language = true ->
  find_model_name sp language (String "*" rest)
  = Raise (re_error (if String.eqb rest "\"
                     then "bad escape (end of pattern)"
                     else "multiple repeat")).
Proof.
  intros Hl. rewrite <- plain_lower in Hl.
  unfold find_model_name, Re.compile. cbv zeta.
  change (Str.lower (String "*" rest)) with (String "*" (Str.lower rest)).
  rewrite parse_plain_prefix by easy.
  change (".*" ++ String "*" (Str.lower rest))%string
    with (String "." (String "*" (String "*" (Str.lower rest)))).
  cbn [Re.parse]. rewrite lone_backslash_lower.
  assert (H : Re.lone_backslash (String "*" (Str.lower rest)) = false)
    by now destruct (Str.lower rest).
  rewrite H. cbn.
  now destruct (String.eqb rest "\").
Qed.

Lemma find_model_name_star_size_witness :
  find_model_name (Examples.store Examples.catalog) "en" "*"
  = Raise (re_error "multiple repeat") /\
  find_model_name (Examples.store Examples.catalog) "en" "*\"
  = Raise (re_error "bad escape (end of pattern)").
Proof.
  split.
  - apply (find_model_name_star_size (Examples.store Examples.catalog) "en" "").
    reflexivity.
  - apply (find_model_name_star_size (Examples.store Examples.catalog) "en" "\").
    reflexivity.
Defined.

(** ** lemmatize_sentence on a constructed instance *)

Lemma split_from_nil (s word : string) :
  Str.split_from word s = [] <->
  Str.is_empty word = true /\ all_space s = true.
Proof.
  revert word; induction s as [|c s IH]; intros word; simpl.
  - destruct (Str.is_empty word); split; try easy; now intros [? _].
  - destruct (Str.isspace c); simpl.
    + destruct (Str.is_empty word) eqn:E.
      * rewrite IH. simpl. tauto.
      * split; [discriminate | now intros [? _]].
    + rewrite IH, is_empty_snoc. split; now intros [? ?].
Qed.

(** A lemma has no first word exactly when it is whitespace only. *)
Lemma first_word_raises (lemma : string) :
  Pipeline.first_word lemma = Raise IndexError <-> all_space lemma = true.
Proof.
  unfold Pipeline.first_word, Str.split.
  pose proof (split_from_nil lemma "") as H. simpl in H.
  destruct (Str.split_from "" lemma) as [|w tl]; simpl.
  - split; [intros _; now apply H | reflexivity].
  - split; [discriminate|]. intros Hs.
    assert (Hnil : w :: tl = []) by (apply H; now split). discriminate.
Qed.

Lemma first_word_outcome (lemma : string) :
  (exists w, Pipeline.first_word lemma = Return w) \/
  Pipeline.first_word lemma = Raise IndexError.
Proof.
  unfold Pipeline.first_word. destruct (Str.split lemma); simpl;
    [now right | left; now eexists].
Qed.

Lemma emit_outcome (s : LemmaSettings) (doc : list Token) :
  ((exists out, Pipeline.emit s doc = Return out) \/
   Pipeline.emit s doc = Raise IndexError) /\
  (Pipeline.emit s doc = Raise IndexError <->
   return_just_first_word_of_lemma s = true /\
   existsb (fun token => all_space (lemma_ token)) doc = true).
Proof.
  induction doc as [|token doc [IHo IHr]]; simpl.
  - split; [left; now eexists|]. split; [discriminate | now intros [_ ?]].
  - unfold Pipeline.final_lemma.
    destruct (return_just_first_word_of_lemma s) eqn:Hfw; cbn [bind_result].
    + destruct (first_word_outcome (lemma_ token)) as [[w Hw] | Hr].
      * assert (Hsp : all_space (lemma_ token) = false).
        { destruct (all_space (lemma_ token)) eqn:E; [|reflexivity].
          apply first_word_raises in E. congruence. }
        rewrite Hw, Hsp. cbn [bind_result orb].
        destruct IHo as [[out Hout] | Hraise].
        -- rewrite Hout in *. cbn [bind_result].
           split; [left; now eexists|].
           split; [discriminate | intros H; now apply IHr in H].
        -- rewrite Hraise in *. cbn [bind_result].
           split; [now right|]. split; [intros _; now apply IHr | reflexivity].
      * rewrite Hr. cbn [bind_result]. apply first_word_raises in Hr.
        rewrite Hr. split; [now right | now split].
    + destruct IHo as [[out Hout] | Hraise].
      * rewrite Hout. cbn [bind_result].
        split; [left; now eexists|]. split; [discriminate | now intros [? _]].
      * apply IHr in Hraise as [? _]. discriminate.
Qed.

(** On an instance with every attribute assigned, [lemmatize_sentence]
    returns a list or raises [IndexError], and it raises exactly when
    [return_just_first_word_of_lemma] is on and the lemma of some token
    that is not dropped is whitespace only. *)
Theorem lemmatize_sentence_outcome
    (nlp : Language) (model_name : string) (s : LemmaSettings)
    (input_str : string) :
  ((exists out,
       fst (lemmatize_sentence input_str (loaded nlp model_name s)) = Return out) \/
   fst (lemmatize_sentence input_str (loaded nlp model_name s))
   = Raise IndexError) /\
  (fst (lemmatize_sentence input_str (loaded nlp model_name s))
   = Raise IndexError <->
   return_just_first_word_of_lemma s = true /\
   existsb (fun token => all_space (lemma_ token))
           (filter (fun token => negb (Pipeline.drop s token))
                   (nlp (Pipeline.annotated_text s input_str))) = true).
Proof.
  rewrite lemmatize_sentence_loaded. cbn [fst]. apply emit_outcome.
Qed.

Lemma emit_texts (s : LemmaSettings) (doc : list Token) (out : list dict) :
  Pipeline.emit s doc = Return out ->
  map Pipeline.original out = map (fun token => Some (text token)) doc.
Proof.
  intros H%emit_Forall2.
  induction H as [|token d doc out [lemma [_ ->]] _ IH]; simpl;
    [reflexivity | now f_equal].
Qed.

(** When [lemmatize_sentence] returns, the list has one dictionary of one
    entry for each token that is not dropped, keyed by the token's text,
    in the order of the tokens and with repeated texts kept apart; so it
    is never longer than the document. *)
Theorem lemmatize_sentence_returns_kept
    (nlp : Language) (model_name : string) (s : LemmaSettings)
    (input_str : string) (out : list dict) :
  fst (lemmatize_sentence input_str (loaded nlp model_name s)) = Return out ->
  map Pipeline.original out =
  map (fun token => Some (text token))
      (filter (fun token => negb (Pipeline.drop s token))
              (nlp (Pipeline.annotated_text s input_str))) /\
  length out <= length (nlp (Pipeline.annotated_text s input_str)).
Proof.
  rewrite lemmatize_sentence_loaded. cbn [fst]. intros H.
  split.
  - now apply (emit_texts s).
  - rewrite (emit_length _ _ _ H). apply filter_length_le.
Qed.

Lemma lemmatize_sentence_returns_kept_witness :
  map Pipeline.original [[("cats", "cat")]; [("cats", "cat")]] =
  map (fun token => Some (text token))
      (filter (fun token => negb (Pipeline.drop Examples.both_filters token))
              (Examples.annotator
                 [Examples.cats; Examples.comma; Examples.cats]
                 (Pipeline.annotated_text Examples.both_filters "cats, cats"))) /\
  length [[("cats", "cat")]; [("cats", "cat")]] <=
  length (Examples.annotator
            [Examples.cats; Examples.comma; Examples.cats]
            (Pipeline.annotated_text Examples.both_filters "cats, cats")).
Proof.
  apply (lemmatize_sentence_returns_kept
           (Examples.annotator [Examples.cats; Examples.comma; Examples.cats])
           "en_core_web_lg" Examples.both_filters "cats, cats"
           [[("cats", "cat")]; [("cats", "cat")]]).
  reflexivity.
Defined.

(** When [lemmatize_sentence] returns, every dictionary comes from a
    token that passed the filters in force: an alphabetic one when
    [filter_out_non_alpha] is on, one that is no stop word when
    [filter_out_common] is on. *)
Theorem lemmatize_sentence_respects_filters
    (nlp : Language) (model_name : string) (s : LemmaSettings)
    (input_str : string) (out : list dict) :
  fst (lemmatize_sentence input_str (loaded nlp model_name s)) = Return out ->
  Forall (fun d =>
            exists token,
              In token (nlp (Pipeline.annotated_text s input_str)) /\
              Pipeline.original d = Some (text token) /\
              (filter_out_non_alpha s = true -> is_alpha token = true) /\
              (filter_out_common s = true -> is_stop token = false)) out.
Proof.
  rewrite lemmatize_sentence_loaded. cbn [fst].
  intros H%emit_originals. revert H. apply Forall_impl.
  intros d (token & Hin & Hd). apply filter_In in Hin as [Hin Hkeep].
  exists token. repeat split; try assumption;
    intros Hf; unfold Pipeline.keep, Pipeline.drop in Hkeep; rewrite Hf in Hkeep;
    destruct (is_alpha token), (is_stop token);
    simpl in Hkeep; try reflexivity; try discriminate;
    destruct (filter_out_non_alpha s), (filter_out_common s); discriminate.
Qed.

Lemma lemmatize_sentence_respects_filters_witness :
  Forall (fun d =>
            exists token,
              In token [Examples.the; Examples.comma; Examples.cats] /\
              Pipeline.original d = Some (text token) /\
              (filter_out_non_alpha Examples.both_filters = true ->
               is_alpha token = true) /\
              (filter_out_common Examples.both_filters = true ->
               is_stop token = false))
         [[("cats", "cat")]].
Proof.
  apply (lemmatize_sentence_respects_filters
           (Examples.annotator [Examples.the; Examples.comma; Examples.cats])
           "en_core_web_lg" Examples.both_filters "The, cats"
           [[("cats", "cat")]]).
  reflexivity.
Defined.

Lemma isspace_lower_char (c : ascii) :
  Str.isspace (Str.lower_char c) = Str.isspace c.
Proof. destruct c as [[] [] [] [] [] [] [] []]; reflexivity. Qed.

Lemma ws_free_lower (w : string) : ws_free (Str.lower w) = ws_free w.
Proof.
  induction w as [|c w IH]; simpl; [reflexivity|].
  now rewrite isspace_lower_char, IH.
Qed.

Lemma is_empty_lower (w : string) : Str.is_empty (Str.lower w) = Str.is_empty w.
Proof. now destruct w. Qed.

Lemma first_word_is_word (lemma w : string) :
  Pipeline.first_word lemma = Return w ->
  ws_free w = true /\ Str.is_empty w = false.
Proof.
  unfold Pipeline.first_word, Str.split. intros H.
  pose proof (split_from_words lemma "" eq_refl) as Hall.
  destruct (Str.split_from "" lemma) as [|w' tl]; [discriminate|].
  injection H as ->. now inversion Hall.
Qed.

Lemma emit_lemmas (P : string -> Prop) (s : LemmaSettings)
    (doc : list Token) (out : list dict) :
  (forall token lemma, Pipeline.final_lemma s token = Return lemma -> P lemma) ->
  Pipeline.emit s doc = Return out ->
  Forall (fun d => exists key lemma, d = [(key, lemma)] /\ P lemma) out.
Proof.
  intros HP H%emit_Forall2.
  induction H as [|token d doc out [lemma [Hl ->]] _ IH]; constructor;
    [|exact IH].
  exists (text token), lemma. split; [reflexivity | now apply (HP token)].
Qed.

(** With [convert_output_to_lower] on, every lemma that is returned is in
    lowercase: lowering it again changes nothing. *)
Theorem lemmatize_sentence_lowercase_lemmas
    (nlp : Language) (model_name : string) (s : LemmaSettings)
    (input_str : string) (out : list dict) :
  convert_output_to_lower s = true ->
  fst (lemmatize_sentence input_str (loaded nlp model_name s)) = Return out ->
  Forall (fun d =>
            exists key lemma, d = [(key, lemma)] /\ Str.lower lemma = lemma)
         out.
Proof.
  intros Hco. rewrite lemmatize_sentence_loaded. cbn [fst].
  apply emit_lemmas. intros token lemma. unfold Pipeline.final_lemma.
  rewrite Hco.
  destruct (if return_just_first_word_of_lemma s then _ else _) as [w| |];
    cbn [bind_result]; try discriminate.
  intros [= <-]. apply lower_idempotent.
Qed.

Lemma lemmatize_sentence_lowercase_lemmas_witness :
  Forall (fun d =>
            exists key lemma, d = [(key, lemma)] /\ Str.lower lemma = lemma)
         [[("gonna", "go to")]].
Proof.
  apply (lemmatize_sentence_lowercase_lemmas
           (Examples.annotator [Examples.gonna]) "en_core_web_lg"
           Examples.output_to_lower_only "gonna" [[("gonna", "go to")]]);
    reflexivity.
Defined.

(** With [return_just_first_word_of_lemma] on, every lemma that is
    returned is one word: it is not empty and holds no whitespace. *)
Theorem lemmatize_sentence_one_word_lemmas
    (nlp : Language) (model_name : string) (s : LemmaSettings)
    (input_str : string) (out : list dict) :
  return_just_first_word_of_lemma s = true ->
  fst (lemmatize_sentence input_str (loaded nlp model_name s)) = Return out ->
  Forall (fun d =>
            exists key lemma,
              d = [(key, lemma)] /\
              ws_free lemma = true /\ Str.is_empty lemma = false)
         out.
Proof.
  intros Hfw. rewrite lemmatize_sentence_loaded. cbn [fst].
  apply emit_lemmas. intros token lemma. unfold Pipeline.final_lemma.
  rewrite Hfw.
  destruct (Pipeline.first_word (lemma_ token)) as [w| |] eqn:E;
    cbn [bind_result]; try discriminate.
  apply first_word_is_word in E as [Hw He]. intros [= <-].
  destruct (convert_output_to_lower s);
    [now rewrite ws_free_lower, is_empty_lower | now split].
Qed.

Lemma lemmatize_sentence_one_word_lemmas_witness :
  Forall (fun d =>
            exists key lemma,
              d = [(key, lemma)] /\
              ws_free lemma = true /\ Str.is_empty lemma = false)
         [[("gonna", "Go")]].
Proof.
  apply (lemmatize_sentence_one_word_lemmas
           (Examples.annotator [Examples.gonna]) "en_core_web_lg"
           Examples.first_word_only "gonna" [[("gonna", "Go")]]);
    reflexivity.
Defined.

(** With [return_just_first_word_of_lemma] off, [lemmatize_sentence]
    always returns: one dictionary for each token that is not dropped, in
    order, holding the token's lemma, lowered when
    [convert_output_to_lower] is on. *)
Theorem lemmatize_sentence_whole_lemmas
    (nlp : Language) (model_name : string) (s : LemmaSettings)
    (input_str : string) :
  return_just_first_word_of_lemma s = false ->
  lemmatize_sentence input_str (loaded nlp model_name s) =
  (Return
     (map (fun token =>
             [(text token,
               if convert_output_to_lower s
               then Str.lower (lemma_ token) else lemma_ token)])
          (filter (fun token => negb (Pipeline.drop s token))
                  (nlp (Pipeline.annotated_text s input_str)))),
   loaded nlp model_name s).
Proof.
  intros Hfw. rewrite lemmatize_sentence_loaded.
  now rewrite emit_whole_lemma by exact Hfw.
Qed.

Lemma lemmatize_sentence_whole_lemmas_witness :
  lemmatize_sentence "gonna  "
    (loaded (Examples.annotator [Examples.gonna; Examples.gap])
            "en_core_web_lg" Examples.output_to_lower_only) =
  (Return [[("gonna", "go to")]; [(" ", " ")]],
   loaded (Examples.annotator [Examples.gonna; Examples.gap])
          "en_core_web_lg" Examples.output_to_lower_only).
Proof.
  apply (lemmatize_sentence_whole_lemmas
           (Examples.annotator [Examples.gonna; Examples.gap])
           "en_core_web_lg" Examples.output_to_lower_only "gonna  ").
  reflexivity.
Defined.

(** Where the run with [return_just_first_word_of_lemma] on returns, the
    run with it off returns as many dictionaries under the same original
    tokens: the option changes lemmas only. *)
Theorem lemmatize_sentence_first_word_keeps_originals
    (nlp : Language) (model_name : string) (s : LemmaSettings)
    (input_str : string) (out : list dict) :
  fst (lemmatize_sentence input_str
         (loaded nlp model_name (with_first_word true s))) = Return out ->
  exists base,
    fst (lemmatize_sentence input_str
           (loaded nlp model_name (with_first_word false s))) = Return base /\
    length base = length out /\
    map Pipeline.original base = map Pipeline.original out.
Proof.
  rewrite !lemmatize_sentence_loaded. cbn [fst].
  apply emit_first_word_same_originals.
Qed.

Lemma lemmatize_sentence_first_word_keeps_originals_witness :
  exists base,
    fst (lemmatize_sentence "gonna"
           (loaded (Examples.annotator [Examples.gonna]) "en_core_web_lg"
                   (with_first_word false default_settings))) = Return base /\
    length base = length [[("gonna", "Go")]] /\
    map Pipeline.original base = map Pipeline.original [[("gonna", "Go")]].
Proof.
  apply (lemmatize_sentence_first_word_keeps_originals
           (Examples.annotator [Examples.gonna]) "en_core_web_lg"
           default_settings "gonna" [[("gonna", "Go")]]).
  reflexivity.
Defined.

(** Taking the first word of a lemma that went through
    [return_just_first_word_of_lemma] gives the same word again. *)
Theorem first_word_twice (lemma w : string) :
  Pipeline.first_word lemma = Return w ->
  Pipeline.first_word w = Return w.
Proof.
  intros H. apply first_word_is_word in H as [Hw He].
  unfold Pipeline.first_word, Str.split.
  rewrite split_from_ws_free by exact Hw. simpl. now rewrite He.
Qed.

Lemma first_word_twice_witness :
  Pipeline.first_word "Go" = Return "Go".
Proof.
  apply (first_word_twice "  Go to " "Go"). reflexivity.
Defined.

(** ** Across methods *)

(** After [init_model] has loaded a model, the options are the defaults
    whatever they were before: the next [lemmatize_sentence] returns
    every token of the document with its lemma untouched, the input
    annotated as given. *)
Theorem init_model_then_lemmatize
    (sp : spacy) (language model_size : string) (self : LemonTizer)
    (model_name : string) (nlp : Language) (input_str : string) :
  find_model_name sp language model_size = Return model_name ->
  is_package sp model_name = true \/ cli_download sp model_name = None ->
  load sp model_name = inr nlp ->
  bind (init_model sp language model_size)
       (fun _ => lemmatize_sentence input_str) self =
  (Return (map (fun token => [(text token, lemma_ token)]) (nlp input_str)),
   loaded nlp model_name default_settings).
Proof.
  intros Hfind Hstore Hload. unfold bind.
  rewrite (init_model_success sp language model_size self model_name nlp)
    by assumption.
  rewrite lemmatize_sentence_loaded.
  rewrite (emit_whole_lemma default_settings _ eq_refl).
  assert (Hall : forall doc, filter (Pipeline.keep default_settings) doc = doc)
    by exact (keep_without_filters default_settings).
  now rewrite Hall.
Qed.

Lemma init_model_then_lemmatize_witness :
  bind (init_model
          (Examples.single "en_core_web_lg" true None
             (inr (Examples.annotator
                     [Examples.the; Examples.comma; Examples.cats])))
          "en" "lg")
       (fun _ => lemmatize_sentence "The, cats")
       (loaded (Examples.annotator []) "es_core_news_lg" Examples.both_filters) =
  (Return [[("The", "the")]; [(",", ",")]; [("cats", "cat")]],
   loaded (Examples.annotator [Examples.the; Examples.comma; Examples.cats])
          "en_core_web_lg" default_settings).
Proof.
  apply (init_model_then_lemmatize
           (Examples.single "en_core_web_lg" true None
              (inr (Examples.annotator
                      [Examples.the; Examples.comma; Examples.cats])))
           "en" "lg"
           (loaded (Examples.annotator []) "es_core_news_lg" Examples.both_filters)
           "en_core_web_lg"
           (Examples.annotator [Examples.the; Examples.comma; Examples.cats])
           "The, cats");
    [reflexivity | left; reflexivity | reflexivity].
Defined.

Lemma existsb_prefix_empty (catalog : list string) :
  existsb (Rule.prefix "") catalog =
  match catalog with [] => false | _ :: _ => true end.
Proof. now destruct catalog. Qed.

(** With an empty language code and a size code without special
    characters, every entry passes the prefix rule: the first entry that
    holds the size code on its first line is returned, and when there is
    none the failure is the unsupported size, unless the table is empty. *)
Theorem find_model_name_empty_language (sp : spacy) (model_size : string) :
  Re.plain model_size = true ->
  find_model_name sp "" model_size =
  match filter (Rule.occurs_on_line (Str.lower model_size))
               (get_compatibility sp) with
  | output :: _ => Return output
  | [] =>
      Raise (match get_compatibility sp with
             | [] => UnsupportedLanguage "" (Str.lower model_size)
             | _ :: _ => UnsupportedModelSize "" (Str.lower model_size)
             end)
  end.
Proof.
  intros Hz. rewrite find_model_name_plain by (assumption || reflexivity).
  cbv zeta. change (Str.lower "") with "".
  rewrite existsb_prefix_empty.
  rewrite (filter_ext_eq (Rule.full "" (Str.lower model_size))
                         (Rule.occurs_on_line (Str.lower model_size)))
    by reflexivity.
  destruct (filter _ _); [|reflexivity].
  now destruct (get_compatibility sp).
Qed.

Lemma find_model_name_empty_language_witness :
  find_model_name (Examples.store Examples.catalog) "" "news"
  = Return "es_core_news_lg" /\
  find_model_name (Examples.store Examples.catalog) "" "md"
  = Raise (UnsupportedModelSize "" "md").
Proof.
  split.
  - apply (find_model_name_empty_language
             (Examples.store Examples.catalog) "news").
    reflexivity.
  - apply (find_model_name_empty_language
             (Examples.store Examples.catalog) "md").
    reflexivity.
Defined.
